(** * github-pages-explorer: the [GitHubPagesGrid] component

    A shallow embedding of [src/github-pages.tsx]: the repository record,
    the component state held in the six [useState] cells, the asynchronous
    [fetchGitHubPages] handler, the filtering effect, the pure helpers
    [truncateDescription] and [getPageUrl], the conditional rendering of
    the result region, and the events of the page (mount, typing, key
    presses, clicks and network answers) with the handler split at its
    [await]. *)

From Stdlib Require Import String Ascii DecimalString.
From Stdlib Require Import Arith NArith Bool List Lia.
Import ListNotations.

Set Implicit Arguments.

(** ** JavaScript strings

    A JavaScript string is a finite sequence of UTF-16 code units; [length],
    [substring], [startsWith], [includes] and concatenation all work on code
    units.  A code unit is kept as its number. *)

Module JS.

Definition jsstring : Type := list N.

(** A source literal, written as a Rocq string of ASCII characters. *)
Definition lit (s : string) : jsstring :=
  map N_of_ascii (list_ascii_of_string s).

(** ToBoolean on a string: only the empty string is falsy. *)
Definition truthy (s : jsstring) : bool :=
  match s with
  | [] => false
  | _ :: _ => true
  end.

(** ToBoolean on [string | null] and [string | undefined]. *)
Definition truthy_opt (o : option jsstring) : bool :=
  match o with
  | None => false
  | Some s => truthy s
  end.

(** WhiteSpace and LineTerminator code units of ECMA-262, the ones
    [String.prototype.trim] removes. *)
Definition is_whitespace (c : N) : bool :=
  ((9 <=? c) && (c <=? 13)        (* TAB, LF, VT, FF, CR *)
   || (c =? 32)                   (* SPACE *)
   || (c =? 160)                  (* NO-BREAK SPACE *)
   || (c =? 5760)                 (* U+1680 *)
   || (8192 <=? c) && (c <=? 8202) (* U+2000 .. U+200A *)
   || (c =? 8232) || (c =? 8233)  (* LINE and PARAGRAPH SEPARATOR *)
   || (c =? 8239)                 (* U+202F *)
   || (c =? 8287)                 (* U+205F *)
   || (c =? 12288)                (* U+3000 *)
   || (c =? 65279))%N.            (* U+FEFF *)

Fixpoint dropWhile (p : N -> bool) (s : jsstring) : jsstring :=
  match s with
  | [] => []
  | c :: s' => if p c then dropWhile p s' else s
  end.

Definition trimStart (s : jsstring) : jsstring := dropWhile is_whitespace s.

Definition trimEnd (s : jsstring) : jsstring :=
  rev (dropWhile is_whitespace (rev s)).

Definition trim (s : jsstring) : jsstring := trimEnd (trimStart s).

(** [s.startsWith(p)] *)
Fixpoint startsWith (s p : jsstring) : bool :=
  match p, s with
  | [], _ => true
  | _ :: _, [] => false
  | a :: p', b :: s' => (a =? b)%N && startsWith s' p'
  end.

(** [s.includes(t)] *)
Fixpoint includes (s t : jsstring) : bool :=
  startsWith s t
  || match s with
     | [] => false
     | _ :: s' => includes s' t
     end.

(** [s.substring(0, n)] for a non-negative integer [n]. *)
Definition substring0 (s : jsstring) (n : nat) : jsstring := firstn n s.

(** Number-to-string conversion of a non-negative integer, as a template
    literal performs it. *)
Definition numberToString (n : N) : jsstring :=
  lit (NilZero.string_of_uint (N.to_uint n)).

(** ASCII lower-casing: the restriction of [toLowerCase] to strings whose
    letters are all in the ASCII range. *)
Definition asciiToLowerCase (s : jsstring) : jsstring :=
  map (fun c => if (65 <=? c) && (c <=? 90) then c + 32 else c)%N s.

End JS.

Import JS.

Arguments lit s%_string.

(** ** Data model *)

Record GitHubRepo : Type := {
  id : N;
  name : jsstring;
  full_name : jsstring;
  description : option jsstring;
  html_url : jsstring;
  homepage : option jsstring;
  has_pages : bool;
  language : option jsstring;
  stargazers_count : N;
  updated_at : jsstring
}.

(** The six state cells of the component. *)
Record State : Type := {
  repos : list GitHubRepo;
  filteredRepos : list GitHubRepo;
  loading : bool;
  error : option jsstring;
  searchTerm : jsstring;
  username : jsstring
}.

(** The values passed to [useState]. *)
Definition initialState : State := {|
  repos := [];
  filteredRepos := [];
  loading := true;
  error := None;
  searchTerm := [];
  username := lit "octocat"
|}.

Definition setRepos (v : list GitHubRepo) (st : State) : State :=
  {| repos := v; filteredRepos := filteredRepos st; loading := loading st;
     error := error st; searchTerm := searchTerm st; username := username st |}.

Definition setFilteredRepos (v : list GitHubRepo) (st : State) : State :=
  {| repos := repos st; filteredRepos := v; loading := loading st;
     error := error st; searchTerm := searchTerm st; username := username st |}.

Definition setLoading (v : bool) (st : State) : State :=
  {| repos := repos st; filteredRepos := filteredRepos st; loading := v;
     error := error st; searchTerm := searchTerm st; username := username st |}.

Definition setError (v : option jsstring) (st : State) : State :=
  {| repos := repos st; filteredRepos := filteredRepos st; loading := loading st;
     error := v; searchTerm := searchTerm st; username := username st |}.

Definition setSearchTerm (v : jsstring) (st : State) : State :=
  {| repos := repos st; filteredRepos := filteredRepos st; loading := loading st;
     error := error st; searchTerm := v; username := username st |}.

Definition setUsername (v : jsstring) (st : State) : State :=
  {| repos := repos st; filteredRepos := filteredRepos st; loading := loading st;
     error := error st; searchTerm := searchTerm st; username := v |}.

(** ** The network and thrown values *)

(** What a [catch] clause can receive: an [Error] instance with its
    [message], or any other value. *)
Inductive Thrown : Type :=
| ErrorObject (message : jsstring)
| OtherThrown.

(** Computations of the [try] block: a thrown value or a result. *)
Definition Try (A : Type) : Type := (Thrown + A)%type.

Definition ret {A : Type} (a : A) : Try A := inr a.

Definition throw {A : Type} (e : Thrown) : Try A := inl e.

Definition bind {A B : Type} (m : Try A) (k : A -> Try B) : Try B :=
  match m with
  | inl e => inl e
  | inr a => k a
  end.

Notation "x <- m ;; k" := (bind m (fun x => k))
  (at level 61, m at next level, right associativity).

(** The part of a [Response] the handler reads.  [json] is the outcome of
    [await response.json()] taken as [GitHubRepo[]]: either the promise
    rejects (or the payload is no array, so that [.filter] throws), or an
    array of repository objects is obtained. *)
Record Response : Type := {
  ok : bool;
  status : N;
  json : Try (list GitHubRepo)
}.

(** Outcome of [await fetch(...)]: rejection (network failure) or a
    response. *)
Definition FetchResult : Type := Try Response.

(** Observable effects of the handler, in program order. *)
Inductive Effect : Type :=
| ConsoleWarn (msg : jsstring)
| HttpGet (url : jsstring) (headers : list (jsstring * jsstring)).

(** ** [fetchGitHubPages] *)

(** [token && token.trim()] with [token : string | undefined]. *)
Definition hasToken (token : option jsstring) : bool :=
  match token with
  | None => false
  | Some t => truthy t && truthy (trim t)
  end.

(** The [headers] object after lines 53-60, with the warning of the [else]
    branch. *)
Definition prepareHeaders (token : option jsstring)
  : list (jsstring * jsstring) * list Effect :=
  match token with
  | Some t =>
      if truthy t && truthy (trim t)
      then ([(lit "Authorization", lit "token " ++ trim t)], [])
      else ([], [ConsoleWarn (lit "NEXT_PUBLIC_GITHUB_TOKEN not found. Making unauthenticated request.")])
  | None =>
      ([], [ConsoleWarn (lit "NEXT_PUBLIC_GITHUB_TOKEN not found. Making unauthenticated request.")])
  end.

Definition requestUrl (user : jsstring) : jsstring :=
  lit "https://api.github.com/users/" ++ user ++ lit "/repos?per_page=100".

Definition tokenRejectedMessage (code : N) : jsstring :=
  lit "Failed to fetch repositories: " ++ numberToString code
  ++ lit ". This might be due to an invalid or expired GitHub token, or insufficient permissions. Please check your NEXT_PUBLIC_GITHUB_TOKEN.".

Definition rateLimitMessage (code : N) : jsstring :=
  lit "Failed to fetch repositories: " ++ numberToString code
  ++ lit ". This is likely due to rate limiting. Please set NEXT_PUBLIC_GITHUB_TOKEN in your .env.local file to increase the rate limit.".

Definition genericMessage (code : N) : jsstring :=
  lit "Failed to fetch repositories: " ++ numberToString code.

(** Lines 64-77: the [if (!response.ok)] block. *)
Definition checkResponse (token : option jsstring) (r : Response) : Try unit :=
  if negb (ok r) then
    if (status r =? 403)%N then
      if hasToken token
      then throw (ErrorObject (tokenRejectedMessage (status r)))
      else throw (ErrorObject (rateLimitMessage (status r)))
    else throw (ErrorObject (genericMessage (status r)))
  else ret tt.

(** The [try] block from the [await fetch] on: the value handed to
    [setRepos], or what is thrown. *)
Definition tryBlock (token : option jsstring) (fr : FetchResult)
  : Try (list GitHubRepo) :=
  response <- fr ;;
  _ <- checkResponse token response ;;
  allRepos <- json response ;;
  ret (filter has_pages allRepos).

(** [err instanceof Error ? err.message : "An error occurred"] *)
Definition errorText (err : Thrown) : jsstring :=
  match err with
  | ErrorObject message => message
  | OtherThrown => lit "An error occurred"
  end.

(** One run of the handler: [token] is the configured
    [NEXT_PUBLIC_GITHUB_TOKEN], [fr] is how the network answers the request.
    The result is the state after the [finally] clause and the effects
    issued. *)
Definition fetchGitHubPages (token : option jsstring) (fr : FetchResult)
    (st : State) : State * list Effect :=
  if negb (truthy (trim (username st))) then (st, [])
  else
    let st1 := setError None (setLoading true st) in
    let '(headers, warned) := prepareHeaders token in
    let request := HttpGet (requestUrl (username st)) headers in
    let st2 :=
      match tryBlock token fr with
      | inr pagesRepos => setRepos pagesRepos st1
      | inl err => setError (Some (errorText err)) st1
      end in
    (setLoading false st2, warned ++ [request]).

(** ** Pure helpers *)

Definition truncateDescriptionTo (description : option jsstring)
    (maxLength : nat) : jsstring :=
  if negb (truthy_opt description) then lit "No description available"
  else
    match description with
    | Some d =>
        if Nat.ltb maxLength (List.length d)
        then substring0 d maxLength ++ lit "..."
        else d
    | None => lit "No description available"
    end.

(** [truncateDescription(description)] with the default [maxLength = 120]. *)
Definition truncateDescription (description : option jsstring) : jsstring :=
  truncateDescriptionTo description 120.

Definition getPageUrl (user : jsstring) (repo : GitHubRepo) : jsstring :=
  match homepage repo with
  | Some h =>
      if truthy h && startsWith h (lit "http") then h
      else lit "https://" ++ user ++ lit ".github.io/" ++ name repo
  | None => lit "https://" ++ user ++ lit ".github.io/" ++ name repo
  end.

(** ** The filtering effect and rendering

    [toLowerCase] (Unicode case mapping) and [formatDate] (locale date
    formatting through [Date]) are built-ins of the platform; the component
    is parameterised by them. *)

Section Component.

Variable toLowerCase : jsstring -> jsstring.
Variable formatDate : jsstring -> jsstring.

(** The predicate handed to [repos.filter] on lines 39-41, read through
    ToBoolean. *)
Definition matchesSearch (term : jsstring) (repo : GitHubRepo) : bool :=
  includes (toLowerCase (name repo)) (toLowerCase term)
  || match description repo with
     | None => false
     | Some d => truthy d && includes (toLowerCase d) (toLowerCase term)
     end.

Definition filterRepos (term : jsstring) (rs : list GitHubRepo)
  : list GitHubRepo :=
  filter (matchesSearch term) rs.

(** The effect with dependencies [[repos, searchTerm]]. *)
Definition filterEffect (st : State) : State :=
  setFilteredRepos (filterRepos (searchTerm st) (repos st)) st.

(** A fetch followed by the re-run of the filtering effect. *)
Definition fetchAndSettle (token : option jsstring) (fr : FetchResult)
    (st : State) : State :=
  filterEffect (fst (fetchGitHubPages token fr st)).

(** What one card shows. *)
Record Card : Type := {
  cardKey : N;
  cardTitle : jsstring;
  cardDescription : jsstring;
  languageBadge : option jsstring;
  stars : N;
  siteHref : jsstring;
  repositoryHref : jsstring;
  updatedText : jsstring
}.

Definition renderCard (user : jsstring) (repo : GitHubRepo) : Card := {|
  cardKey := id repo;
  cardTitle := name repo;
  cardDescription := truncateDescription (description repo);
  languageBadge := if truthy_opt (language repo) then language repo else None;
  stars := stargazers_count repo;
  siteHref := getPageUrl user repo;
  repositoryHref := html_url repo;
  updatedText := lit "Updated " ++ formatDate (updated_at repo)
|}.

(** The region below the header: the conditional of lines 156-238. *)
Inductive Region : Type :=
| Skeleton (placeholders : nat)
| Grid (found : nat) (noun : jsstring) (cards : list Card)
| EmptyState (heading message : jsstring)
| Nothing.

Definition emptyStateMessage (user : jsstring) : jsstring :=
  lit "No repositories with GitHub Pages were found for user "
  ++ [34%N] ++ user ++ [34%N]
  ++ lit ". Make sure you have repositories with GitHub Pages enabled.".

(** Lines 171-238: the branches after the [loading] test. *)
Definition resultRegion (st : State) : Region :=
  if Nat.ltb 0 (List.length (filteredRepos st)) then
    Grid (List.length (filteredRepos st))
         (if Nat.eqb (List.length (filteredRepos st)) 1
          then lit "repository" else lit "repositories")
         (map (renderCard (username st)) (filteredRepos st))
  else if negb (loading st)
          && Nat.eqb (List.length (repos st)) 0
          && truthy (username st)
  then EmptyState (lit "No GitHub Pages Found")
                  (emptyStateMessage (username st))
  else Nothing.

Definition mainRegion (st : State) : Region :=
  if loading st then Skeleton 6 else resultRegion st.

(** The whole view: whether the search box is there (line 137), the text
    of the first paragraph of the error banner when it is shown
    (lines 147-149) and the region. *)
Record View : Type := {
  searchBox : bool;
  errorBanner : option jsstring;
  region : Region
}.

Definition render (st : State) : View := {|
  searchBox := Nat.ltb 0 (List.length (repos st));
  errorBanner :=
    match error st with
    | Some message =>
        if truthy message then Some (lit "Error: " ++ message) else None
    | None => None
    end;
  region := mainRegion st
|}.

End Component.

(** ** Specification-side notions *)

(** [t] occurs in [s] as a contiguous run of code units. *)
Definition Substring (t s : jsstring) : Prop :=
  exists pre post, s = pre ++ t ++ post.

(** [p] is an initial segment of [s]. *)
Definition Prefix (p s : jsstring) : Prop :=
  exists rest, s = p ++ rest.

(** Every code unit of [s] is white space. *)
Definition Blank (s : jsstring) : Prop :=
  Forall (fun c => is_whitespace c = true) s.

(** [s] contains [t] up to letter case, for the lower-casing [lower]. *)
Definition ContainsCI (lower : jsstring -> jsstring) (s t : jsstring) : Prop :=
  Substring (lower t) (lower s).

(** The text filter as the specification words it: an entry is kept when
    its name contains the term, or its description is present and contains
    the term, letter case ignored. *)
Definition specKeeps (lower : jsstring -> jsstring) (term : jsstring)
    (repo : GitHubRepo) : bool :=
  includes (lower (name repo)) (lower term)
  || match description repo with
     | None => false
     | Some d => includes (lower d) (lower term)
     end.

(** The URL the site link falls back to. *)
Definition pagesUrl (user : jsstring) (repo : GitHubRepo) : jsstring :=
  lit "https://" ++ user ++ lit ".github.io/" ++ name repo.

(** A state whose cells are those of [st] except [loading] and [error]. *)
Definition withOutcome (st : State) (err : option jsstring) : State := {|
  repos := repos st;
  filteredRepos := filteredRepos st;
  loading := false;
  error := err;
  searchTerm := searchTerm st;
  username := username st
|}.

(** Decimal digits, as code units. *)
Definition is_digit (c : N) : bool := ((48 <=? c) && (c <=? 57))%N.

(** The three ways a fetch fails: the request itself is rejected, the
    response has a non-success status, or its body cannot be used. *)
Inductive Failing : FetchResult -> Prop :=
| Failing_network : forall e, Failing (inl e)
| Failing_status : forall r, ok r = false -> Failing (inr r)
| Failing_body : forall r e, ok r = true -> json r = inl e -> Failing (inr r).

(** ** Sample data *)

Definition mkRepo (n : jsstring) (d h : option jsstring) (pages : bool)
  : GitHubRepo := {|
  id := 1;
  name := n;
  full_name := lit "octocat/" ++ n;
  description := d;
  html_url := lit "https://github.com/octocat/" ++ n;
  homepage := h;
  has_pages := pages;
  language := None;
  stargazers_count := 0;
  updated_at := lit "2024-01-01T00:00:00Z"
|}.

Definition blogRepo : GitHubRepo := mkRepo (lit "blog") None None true.

Definition siteRepo : GitHubRepo :=
  mkRepo (lit "Site") (Some (lit "My Home Page"))
         (Some (lit "https://example.com")) true.

Definition toolRepo : GitHubRepo :=
  mkRepo (lit "tool") (Some (lit "a CLI")) None false.

Definition readyState : State := {|
  repos := [siteRepo; blogRepo];
  filteredRepos := [siteRepo; blogRepo];
  loading := false;
  error := None;
  searchTerm := [];
  username := lit "octocat"
|}.

Definition okResponse (body : list GitHubRepo) : Response :=
  {| ok := true; status := 200; json := inr body |}.

Definition failResponse (code : N) : Response :=
  {| ok := false; status := code; json := inr [] |}.

(** ** The handler in its two phases, and the events of the page

    [fetchGitHubPages] is an [async] function: what precedes
    [await fetch(...)] runs when the handler is called, what follows runs
    when the network answers, on the state cells as they are then.  The
    token is read before the [await]; the setters replace whole cells. *)

(** Lines 47-62: the guard, [setLoading(true)], [setError(null)], the
    headers and the request.  [None] is the early [return]. *)
Definition beginFetch (token : option jsstring) (st : State)
  : option (State * list Effect) :=
  if negb (truthy (trim (username st))) then None
  else
    let st1 := setError None (setLoading true st) in
    let '(headers, warned) := prepareHeaders token in
    Some (st1, warned ++ [HttpGet (requestUrl (username st)) headers]).

(** Lines 64-89: the rest of the [try] block, [catch] and [finally]. *)
Definition resolveFetch (token : option jsstring) (fr : FetchResult)
    (st : State) : State :=
  setLoading false
    match tryBlock token fr with
    | inr pagesRepos => setRepos pagesRepos st
    | inl err => setError (Some (errorText err)) st
    end.

(** [a === b] on strings. *)
Definition jsstring_eqb (a b : jsstring) : bool :=
  if list_eq_dec N.eq_dec a b then true else false.

(** The fetch button (lines 132-134): [disabled={loading}] and its label. *)
Definition fetchButtonDisabled (st : State) : bool := loading st.

Definition fetchButtonLabel (st : State) : jsstring :=
  if loading st then lit "Loading..." else lit "Fetch Repositories".

(** The page between two events: the state cells and the URLs of the
    requests not answered yet, oldest first. *)
Record World : Type := {
  ui : State;
  inflight : list jsstring
}.

Inductive Event : Type :=
| Mount                              (* both [useEffect] bodies, first render *)
| ChangeUsername (v : jsstring)      (* [onChange] of the username input *)
| ChangeSearch (v : jsstring)        (* [onChange] of the search input *)
| KeyDown (key : jsstring)           (* [onKeyDown] of the username input *)
| ClickFetch                         (* [onClick] of the button *)
| Resolve (i : nat) (fr : FetchResult). (* the [i]-th open request is answered *)

Definition initialWorld : World := {| ui := initialState; inflight := [] |}.

(** A call of [fetchGitHubPages] up to its first [await]. *)
Definition startFetch (token : option jsstring) (w : World)
  : World * list Effect :=
  match beginFetch token (ui w) with
  | None => (w, [])
  | Some (st1, effects) =>
      ({| ui := st1;
          inflight := inflight w ++ [requestUrl (username (ui w))] |},
       effects)
  end.

Fixpoint removeNth {A : Type} (i : nat) (l : list A) : list A :=
  match l, i with
  | [], _ => []
  | _ :: l', O => l'
  | a :: l', S i' => a :: removeNth i' l'
  end.

(** One event, with the filtering effect re-run when one of its
    dependencies [repos], [searchTerm] was given a new value.  The search
    input exists only while [repos.length > 0] (line 137); a click on the
    disabled button does nothing. *)
Definition step (lower : jsstring -> jsstring) (token : option jsstring)
    (ev : Event) (w : World) : World * list Effect :=
  match ev with
  | Mount =>
      let '(w1, effects) := startFetch token w in
      ({| ui := filterEffect lower (ui w1); inflight := inflight w1 |}, effects)
  | ChangeUsername v =>
      ({| ui := setUsername v (ui w); inflight := inflight w |}, [])
  | ChangeSearch v =>
      if Nat.ltb 0 (List.length (repos (ui w))) then
        if jsstring_eqb v (searchTerm (ui w)) then (w, [])
        else ({| ui := filterEffect lower (setSearchTerm v (ui w));
                 inflight := inflight w |}, [])
      else (w, [])
  | KeyDown key =>
      if jsstring_eqb key (lit "Enter") then startFetch token w else (w, [])
  | ClickFetch =>
      if fetchButtonDisabled (ui w) then (w, []) else startFetch token w
  | Resolve i fr =>
      match nth_error (inflight w) i with
      | None => (w, [])
      | Some _ =>
          let st1 := resolveFetch token fr (ui w) in
          ({| ui := match tryBlock token fr with
                    | inr _ => filterEffect lower st1
                    | inl _ => st1
                    end;
              inflight := removeNth i (inflight w) |}, [])
      end
  end.

Fixpoint run (lower : jsstring -> jsstring) (token : option jsstring)
    (evs : list Event) (w : World) : World * list Effect :=
  match evs with
  | [] => (w, [])
  | ev :: rest =>
      let '(w1, effects1) := step lower token ev w in
      let '(w2, effects2) := run lower token rest w1 in
      (w2, effects1 ++ effects2)
  end.

(** Events that start a fetch only through the button: no second mount,
    no Enter key. *)
Definition buttonOnly (ev : Event) : Prop :=
  match ev with
  | Mount => False
  | KeyDown key => key <> lit "Enter"
  | _ => True
  end.

(** The stored list holds pages-enabled entries only, and the filtered
    list is the stored list filtered by the current search term. *)
Definition Consistent (lower : jsstring -> jsstring) (st : State) : Prop :=
  Forall (fun r => has_pages r = true) (repos st)
  /\ filteredRepos st = filterRepos lower (searchTerm st) (repos st).

(** The loading flag tells whether a request is open, and at most one
    is. *)
Definition OneAtATime (w : World) : Prop :=
  (loading (ui w) = true /\ List.length (inflight w) = 1)
  \/ (loading (ui w) = false /\ inflight w = []).

(** The HTTP requests among a list of effects. *)
Definition requestsOf (effects : list Effect) : list jsstring :=
  flat_map (fun e => match e with
                     | HttpGet url _ => [url]
                     | ConsoleWarn _ => []
                     end) effects.

(** A page showing two entries, with no request open. *)
Definition readyWorld : World := {| ui := readyState; inflight := [] |}.

(** A fetch for [octocat] whose answer, with no pages-enabled entry,
    arrives after the username field was changed to [mona], and the same
    with the field cleared. *)
Definition editedBeforeAnswer : list Event :=
  [KeyDown (lit "Enter"); ChangeUsername (lit "mona");
   Resolve 0 (inr (okResponse [toolRepo]))].

Definition clearedBeforeAnswer : list Event :=
  [KeyDown (lit "Enter"); ChangeUsername [];
   Resolve 0 (inr (okResponse [toolRepo]))].

(** The loading flag tells whether a request is open, at most one is, and
    the error cell is empty while it is. *)
Definition QuietWhileOpen (w : World) : Prop :=
  (loading (ui w) = true /\ List.length (inflight w) = 1
   /\ error (ui w) = None)
  \/ (loading (ui w) = false /\ inflight w = []).

(** A request URL built from a username that is not blank. *)
Definition forNonBlankUser (url : jsstring) : Prop :=
  exists user, ~ Blank user /\ url = requestUrl user.

(** ** Facts about the string operations *)

Lemma startsWith_nil (s : jsstring) : startsWith s [] = true.
Proof. destruct s; reflexivity. Qed.

Lemma startsWith_Prefix (s p : jsstring) :
  startsWith s p = true <-> Prefix p s.
Proof.
  revert s; induction p as [|a p IH]; intros s.
  - rewrite startsWith_nil. split; [intros _; now exists s | reflexivity].
  - destruct s as [|b s]; simpl.
    + split; [discriminate | intros [rest H]; discriminate].
    + rewrite andb_true_iff, N.eqb_eq, IH. split.
      * intros [-> [rest ->]]. now exists rest.
      * intros [rest H]. injection H as -> ->. split; [reflexivity | now exists rest].
Qed.

Lemma includes_unfold (s t : jsstring) :
  includes s t
  = startsWith s t || match s with [] => false | _ :: s' => includes s' t end.
Proof. destruct s; reflexivity. Qed.

Lemma includes_nil (s : jsstring) : includes s [] = true.
Proof. rewrite includes_unfold, startsWith_nil. reflexivity. Qed.

Lemma includes_Substring (s t : jsstring) :
  includes s t = true <-> Substring t s.
Proof.
  induction s as [|c s IH].
  - rewrite includes_unfold, orb_false_r, startsWith_Prefix. split.
    + intros [rest H]. now exists [], rest.
    + intros [pre [post H]]. destruct pre; [now exists post | discriminate].
  - rewrite includes_unfold, orb_true_iff, startsWith_Prefix, IH. split.
    + intros [[rest H] | [pre [post H]]].
      * now exists [], rest.
      * exists (c :: pre), post. simpl. now rewrite H.
    + intros [pre [post H]]. destruct pre as [|d pre].
      * left. now exists post.
      * right. injection H as -> ->. now exists pre, post.
Qed.

Lemma includes_in_nil (t : jsstring) : includes [] t = true -> t = [].
Proof.
  destruct t; [reflexivity | simpl; discriminate].
Qed.

Lemma dropWhile_nil_iff (p : N -> bool) (s : jsstring) :
  dropWhile p s = [] <-> Forall (fun c => p c = true) s.
Proof.
  induction s as [|c s IH]; simpl.
  - split; [constructor | reflexivity].
  - destruct (p c) eqn:E.
    + rewrite IH. split; [now constructor | now inversion 1].
    + split; [discriminate | inversion 1; congruence].
Qed.

Lemma dropWhile_head (p : N -> bool) (s : jsstring) c s' :
  dropWhile p s = c :: s' -> p c = false.
Proof.
  induction s as [|d s IH]; simpl; [discriminate|].
  destruct (p d) eqn:E; [exact IH | congruence].
Qed.

Lemma rev_nil_inv (A : Type) (l : list A) : rev l = [] -> l = [].
Proof.
  intros H. apply (f_equal (@rev A)) in H. now rewrite rev_involutive in H.
Qed.

Lemma trim_nil_iff (s : jsstring) : trim s = [] <-> Blank s.
Proof.
  unfold trim, trimEnd, trimStart, Blank. split.
  - intros H. apply rev_nil_inv in H. apply dropWhile_nil_iff in H.
    apply Forall_rev in H. rewrite rev_involutive in H.
    apply dropWhile_nil_iff.
    destruct (dropWhile is_whitespace s) as [|c s'] eqn:E; [reflexivity|].
    apply dropWhile_head in E. inversion H; congruence.
  - intros H. apply dropWhile_nil_iff in H. now rewrite H.
Qed.

Lemma truthy_false_iff (s : jsstring) : truthy s = false <-> s = [].
Proof. destruct s; simpl; split; congruence. Qed.

Lemma truthy_true_iff (s : jsstring) : truthy s = true <-> s <> [].
Proof. destruct s; simpl; split; congruence. Qed.

Lemma truthy_trim_false_iff (s : jsstring) :
  truthy (trim s) = false <-> Blank s.
Proof. now rewrite truthy_false_iff, trim_nil_iff. Qed.

Lemma trim_truthy_source (s : jsstring) :
  truthy (trim s) = true -> truthy s = true.
Proof.
  destruct s; [simpl; discriminate | reflexivity].
Qed.

Lemma not_Blank_trim (s : jsstring) : ~ Blank s <-> truthy (trim s) = true.
Proof.
  rewrite <- truthy_trim_false_iff. destruct (truthy (trim s)); split; congruence.
Qed.

Lemma hasToken_iff (token : option jsstring) :
  hasToken token = true <-> exists t, token = Some t /\ ~ Blank t.
Proof.
  destruct token as [t|]; simpl.
  - rewrite andb_true_iff. split.
    + intros [_ H]. exists t. split; [reflexivity | now apply not_Blank_trim].
    + intros [t' [[= <-] H]]. apply not_Blank_trim in H.
      split; [now apply trim_truthy_source | exact H].
  - split; [discriminate | intros [t [H _]]; discriminate].
Qed.

Lemma hasToken_false_iff (token : option jsstring) :
  hasToken token = false <-> token = None \/ exists t, token = Some t /\ Blank t.
Proof.
  destruct token as [t|]; simpl.
  - rewrite andb_false_iff, truthy_trim_false_iff. split.
    + intros [H | H]; right; exists t; split; trivial.
      apply truthy_false_iff in H. subst t. constructor.
    + intros [H | [t' [[= <-] H]]]; [discriminate | now right].
  - split; [now left | reflexivity].
Qed.

(** ** Facts about the handler *)

Lemma fetch_blank (token : option jsstring) (fr : FetchResult) (st : State) :
  Blank (username st) -> fetchGitHubPages token fr st = (st, []).
Proof.
  intros H. unfold fetchGitHubPages.
  apply truthy_trim_false_iff in H. now rewrite H.
Qed.

Lemma fetch_state (token : option jsstring) (fr : FetchResult) (st : State) :
  ~ Blank (username st) ->
  fst (fetchGitHubPages token fr st)
  = match tryBlock token fr with
    | inr pagesRepos =>
        {| repos := pagesRepos; filteredRepos := filteredRepos st;
           loading := false; error := None;
           searchTerm := searchTerm st; username := username st |}
    | inl err => withOutcome st (Some (errorText err))
    end.
Proof.
  intros H. apply not_Blank_trim in H. unfold fetchGitHubPages. rewrite H. simpl.
  destruct (prepareHeaders token) as [hs ws]. simpl.
  destruct (tryBlock token fr); reflexivity.
Qed.

Lemma fetch_effects (token : option jsstring) (fr : FetchResult) (st : State) :
  ~ Blank (username st) ->
  snd (fetchGitHubPages token fr st)
  = snd (prepareHeaders token)
    ++ [HttpGet (requestUrl (username st)) (fst (prepareHeaders token))].
Proof.
  intros H. apply not_Blank_trim in H. unfold fetchGitHubPages. rewrite H. simpl.
  destruct (prepareHeaders token) as [hs ws]. reflexivity.
Qed.

Lemma tryBlock_success (token : option jsstring) (r : Response)
    (allRepos : list GitHubRepo) :
  ok r = true -> json r = inr allRepos ->
  tryBlock token (inr r) = inr (filter has_pages allRepos).
Proof.
  intros Hok Hjson. unfold tryBlock, checkResponse. simpl.
  rewrite Hok. simpl. rewrite Hjson. reflexivity.
Qed.

Lemma tryBlock_status (token : option jsstring) (r : Response) :
  ok r = false ->
  tryBlock token (inr r)
  = inl (ErrorObject
           (if (status r =? 403)%N
            then if hasToken token
                 then tokenRejectedMessage (status r)
                 else rateLimitMessage (status r)
            else genericMessage (status r))).
Proof.
  intros Hok. unfold tryBlock, checkResponse. simpl. rewrite Hok. simpl.
  destruct (status r =? 403)%N; [destruct (hasToken token)|]; reflexivity.
Qed.

Lemma tryBlock_failing (token : option jsstring) (fr : FetchResult) :
  Failing fr -> exists err, tryBlock token fr = inl err.
Proof.
  intros [e | r Hok | r e Hok Hjson].
  - now exists e.
  - rewrite (tryBlock_status token r Hok). eauto.
  - exists e. unfold tryBlock, checkResponse. simpl. rewrite Hok. simpl.
    now rewrite Hjson.
Qed.

Lemma success_state (token : option jsstring) (r : Response)
    (allRepos : list GitHubRepo) (st : State) :
  ~ Blank (username st) -> ok r = true -> json r = inr allRepos ->
  fst (fetchGitHubPages token (inr r) st)
  = {| repos := filter has_pages allRepos;
       filteredRepos := filteredRepos st;
       loading := false;
       error := None;
       searchTerm := searchTerm st;
       username := username st |}.
Proof.
  intros Hu Hok Hjson.
  rewrite (fetch_state token (inr r) st Hu).
  now rewrite (tryBlock_success token r Hok Hjson).
Qed.

(** ** The text filter *)

Lemma specKeeps_iff (lower : jsstring -> jsstring) (term : jsstring)
    (repo : GitHubRepo) :
  specKeeps lower term repo = true
  <-> ContainsCI lower (name repo) term
      \/ exists d, description repo = Some d /\ ContainsCI lower d term.
Proof.
  unfold specKeeps, ContainsCI.
  rewrite orb_true_iff, includes_Substring.
  destruct (description repo) as [d|].
  - rewrite includes_Substring. split.
    + intros [H | H]; [now left | right; now exists d].
    + intros [H | [d' [[= <-] H]]]; [now left | now right].
  - split.
    + intros [H | H]; [now left | discriminate].
    + intros [H | [d' [H _]]]; [now left | discriminate].
Qed.

Lemma matchesSearch_spec (lower : jsstring -> jsstring) (term : jsstring)
    (repo : GitHubRepo) :
  lower [] = [] ->
  matchesSearch lower term repo = specKeeps lower term repo.
Proof.
  intros Hnil. unfold matchesSearch, specKeeps.
  destruct (description repo) as [[|c d]|]; try reflexivity.
  simpl truthy. rewrite andb_false_l, Hnil.
  destruct (includes [] (lower term)) eqn:E.
  - apply includes_in_nil in E. rewrite E, includes_nil. reflexivity.
  - reflexivity.
Qed.

Lemma filter_all (A : Type) (f : A -> bool) (l : list A) :
  (forall x, In x l -> f x = true) -> filter f l = l.
Proof.
  induction l as [|a l IH]; simpl; intros H; [reflexivity|].
  rewrite (H a (or_introl eq_refl)), IH; [reflexivity|].
  intros x Hx. apply H. now right.
Qed.

(** C1. For every fetched list and every search term, the text filter keeps
    exactly the entries whose name contains the term case-insensitively or
    whose description is present and contains it case-insensitively, in
    their original order; the empty term keeps the whole list.  The
    lower-casing function is any one that maps the empty string to
    itself. *)
Theorem text_filter_retains_matching
    (lower : jsstring -> jsstring) (Hnil : lower [] = [])
    (term : jsstring) (st : State) :
  filteredRepos (filterEffect lower st)
  = filter (specKeeps lower (searchTerm st)) (repos st)
  /\ filterRepos lower term (repos st) = filter (specKeeps lower term) (repos st)
  /\ (forall r, In r (filterRepos lower term (repos st))
        <-> In r (repos st)
            /\ (ContainsCI lower (name r) term
                \/ exists d, description r = Some d /\ ContainsCI lower d term))
  /\ filterRepos lower [] (repos st) = repos st.
Proof.
  assert (E : forall t rs, filterRepos lower t rs = filter (specKeeps lower t) rs).
  { intros t rs. unfold filterRepos. apply filter_ext.
    intros r. now apply matchesSearch_spec. }
  repeat split.
  - simpl. apply E.
  - apply E.
  - rewrite E in H. now apply filter_In in H.
  - rewrite E in H. apply filter_In in H. now apply specKeeps_iff.
  - intros [Hin Hk]. rewrite E. apply filter_In. split; [exact Hin|].
    now apply specKeeps_iff.
  - rewrite E. apply filter_all. intros r _. unfold specKeeps.
    rewrite Hnil, includes_nil. reflexivity.
Qed.

Lemma text_filter_retains_matching_witness :
  filteredRepos (filterEffect asciiToLowerCase
                   (setSearchTerm (lit "HOME") readyState))
  = [siteRepo].
Proof.
  pose proof (text_filter_retains_matching asciiToLowerCase eq_refl
                (lit "HOME") (setSearchTerm (lit "HOME") readyState)) as H.
  destruct H as [H _]. rewrite H. reflexivity.
Defined.

(** ** Successful fetches *)

(** C2. For every successful response carrying an arbitrary list of
    repository objects, the list stored by the handler is exactly the
    entries whose [has_pages] flag is true, in order, whatever list was
    stored before; the other cells keep their values, with [loading] false
    and [error] cleared. *)
Theorem success_stores_pages_enabled
    (token : option jsstring) (r : Response) (allRepos : list GitHubRepo)
    (st : State) :
  ~ Blank (username st) -> ok r = true -> json r = inr allRepos ->
  fst (fetchGitHubPages token (inr r) st)
  = {| repos := filter has_pages allRepos;
       filteredRepos := filteredRepos st;
       loading := false;
       error := None;
       searchTerm := searchTerm st;
       username := username st |}
  /\ (forall x, In x (repos (fst (fetchGitHubPages token (inr r) st)))
        <-> In x allRepos /\ has_pages x = true).
Proof.
  intros Hu Hok Hjson.
  assert (E := success_state token r st Hu Hok Hjson).
  split; [exact E|].
  intros x. rewrite E. simpl. apply filter_In.
Qed.

Lemma success_stores_pages_enabled_witness :
  repos (fst (fetchGitHubPages None
                (inr (okResponse [toolRepo; blogRepo; toolRepo; siteRepo]))
                readyState))
  = [blogRepo; siteRepo].
Proof.
  rewrite (proj1 (success_stores_pages_enabled None
                    (okResponse [toolRepo; blogRepo; toolRepo; siteRepo])
                    readyState
                    (proj2 (not_Blank_trim (lit "octocat")) eq_refl)
                    eq_refl eq_refl)).
  reflexivity.
Defined.

(** ** Error classification *)

Lemma digits_of_uint (d : Decimal.uint) :
  Forall (fun c => is_digit c = true) (lit (NilEmpty.string_of_uint d)).
Proof.
  induction d; simpl; constructor; trivial.
Qed.

Lemma numberToString_digits (n : N) :
  Forall (fun c => is_digit c = true) (numberToString n).
Proof.
  unfold numberToString, NilZero.string_of_uint.
  destruct (N.to_uint n); try apply digits_of_uint.
  repeat constructor.
Qed.

Lemma genericMessage_not_403_text (n : N) :
  genericMessage n <> tokenRejectedMessage 403
  /\ genericMessage n <> rateLimitMessage 403.
Proof.
  assert (D := numberToString_digits n).
  unfold genericMessage, tokenRejectedMessage, rateLimitMessage.
  split; intros H.
  - rewrite <- (app_nil_r (numberToString n)) in H.
    apply app_inv_head in H.
    destruct (numberToString n) as [|a [|b [|c [|d s]]]]; try discriminate H.
    do 3 (apply Forall_inv_tail in D). apply Forall_inv in D.
    vm_compute in H. injection H as -> -> -> -> _. discriminate D.
  - rewrite <- (app_nil_r (numberToString n)) in H.
    apply app_inv_head in H.
    destruct (numberToString n) as [|a [|b [|c [|d s]]]]; try discriminate H.
    do 3 (apply Forall_inv_tail in D). apply Forall_inv in D.
    vm_compute in H. injection H as -> -> -> -> _. discriminate D.
Qed.

(** C3. For every response whose [ok] flag is false, the handler ends with
    the error cell holding exactly one of three texts: with status 403 and
    a usable (non-blank) credential, the text about an invalid or expired
    token or insufficient permissions; with status 403 and no usable
    credential, the text about rate limiting that advises setting the
    token; with any other status, the generic text ending in the status
    number.  The three texts are pairwise different. *)
Theorem non_success_error_classification
    (token : option jsstring) (r : Response) (st : State) :
  ~ Blank (username st) -> ok r = false ->
  (status r = 403%N -> (exists t, token = Some t /\ ~ Blank t) ->
     error (fst (fetchGitHubPages token (inr r) st))
     = Some (lit "Failed to fetch repositories: 403. This might be due to an invalid or expired GitHub token, or insufficient permissions. Please check your NEXT_PUBLIC_GITHUB_TOKEN."))
  /\ (status r = 403%N -> (token = None \/ exists t, token = Some t /\ Blank t) ->
     error (fst (fetchGitHubPages token (inr r) st))
     = Some (lit "Failed to fetch repositories: 403. This is likely due to rate limiting. Please set NEXT_PUBLIC_GITHUB_TOKEN in your .env.local file to increase the rate limit."))
  /\ (status r <> 403%N ->
     error (fst (fetchGitHubPages token (inr r) st))
     = Some (lit "Failed to fetch repositories: " ++ numberToString (status r)))
  /\ (tokenRejectedMessage 403 <> rateLimitMessage 403
      /\ genericMessage (status r) <> tokenRejectedMessage 403
      /\ genericMessage (status r) <> rateLimitMessage 403)
  /\ genericMessage 500 = lit "Failed to fetch repositories: 500".
Proof.
  intros Hu Hok.
  assert (E := fetch_state token (inr r) st Hu).
  rewrite (tryBlock_status token r Hok) in E. rewrite E. simpl.
  repeat split.
  - intros Hs Ht. apply hasToken_iff in Ht. rewrite Hs, Ht. reflexivity.
  - intros Hs Ht. apply hasToken_false_iff in Ht. rewrite Hs, Ht. reflexivity.
  - intros Hs. apply N.eqb_neq in Hs. rewrite Hs. reflexivity.
  - vm_compute. discriminate.
  - apply genericMessage_not_403_text.
  - apply genericMessage_not_403_text.
Qed.

Lemma non_success_error_classification_witness :
  error (fst (fetchGitHubPages (Some (lit "ghp_secret"))
                (inr (failResponse 403)) readyState))
  = Some (tokenRejectedMessage 403)
  /\ error (fst (fetchGitHubPages None (inr (failResponse 403)) readyState))
     = Some (rateLimitMessage 403)
  /\ error (fst (fetchGitHubPages None (inr (failResponse 500)) readyState))
     = Some (lit "Failed to fetch repositories: 500").
Proof.
  pose proof (non_success_error_classification (Some (lit "ghp_secret"))
                (failResponse 403) readyState
                (proj2 (not_Blank_trim (lit "octocat")) eq_refl) eq_refl)
    as [H1 _].
  pose proof (non_success_error_classification None
                (failResponse 403) readyState
                (proj2 (not_Blank_trim (lit "octocat")) eq_refl) eq_refl)
    as [_ [H2 _]].
  pose proof (non_success_error_classification None
                (failResponse 500) readyState
                (proj2 (not_Blank_trim (lit "octocat")) eq_refl) eq_refl)
    as [_ [_ [H3 _]]].
  split; [|split].
  - apply H1; [reflexivity|].
    exists (lit "ghp_secret"). split; [reflexivity|].
    apply (proj2 (not_Blank_trim (lit "ghp_secret"))). reflexivity.
  - apply H2; [reflexivity | now left].
  - apply H3. discriminate.
Defined.

(** ** Link derivation *)

(** C4. The site link of an entry is its homepage when the homepage is
    present and begins with [http]; otherwise it is
    [https://<username>.github.io/<name>].  The repository link is the
    entry's [html_url] unchanged.  With homepage [https://example.com] the
    site link is that homepage; with no homepage, name [blog] and username
    [octocat] it is [https://octocat.github.io/blog]. *)
Theorem site_and_repository_links
    (formatDate : jsstring -> jsstring) (user : jsstring) (repo : GitHubRepo) :
  (forall h, homepage repo = Some h -> Prefix (lit "http") h ->
     getPageUrl user repo = h)
  /\ (homepage repo = None
      \/ (exists h, homepage repo = Some h /\ ~ Prefix (lit "http") h) ->
      getPageUrl user repo
      = lit "https://" ++ user ++ lit ".github.io/" ++ name repo)
  /\ siteHref (renderCard formatDate user repo) = getPageUrl user repo
  /\ repositoryHref (renderCard formatDate user repo) = html_url repo
  /\ getPageUrl (lit "octocat") siteRepo = lit "https://example.com"
  /\ getPageUrl (lit "octocat") blogRepo = lit "https://octocat.github.io/blog".
Proof.
  repeat split.
  - intros h Hh Hp. unfold getPageUrl. rewrite Hh.
    assert (Hs : startsWith h (lit "http") = true) by now apply startsWith_Prefix.
    rewrite Hs. destruct h as [|c h]; [discriminate Hs | reflexivity].
  - intros [Hn | [h [Hh Hp]]]; unfold getPageUrl.
    + now rewrite Hn.
    + rewrite Hh. destruct (startsWith h (lit "http")) eqn:Hs.
      * exfalso. apply Hp. now apply startsWith_Prefix.
      * now rewrite andb_false_r.
Qed.

Lemma site_and_repository_links_witness :
  getPageUrl (lit "octocat") siteRepo = lit "https://example.com"
  /\ getPageUrl (lit "mona") toolRepo = lit "https://mona.github.io/tool".
Proof.
  split.
  - apply (proj1 (site_and_repository_links (fun s => s) (lit "octocat") siteRepo)
             (lit "https://example.com") eq_refl).
    exists (lit "s://example.com"). reflexivity.
  - apply (proj1 (proj2 (site_and_repository_links (fun s => s) (lit "mona")
                           toolRepo))).
    left. reflexivity.
Defined.

(** ** Description truncation *)

(** C5, as stated, fails: the empty description has length at most 120 and
    is not returned unchanged; the placeholder is returned. *)
Lemma truncate_empty_description_counterexample :
  List.length (@nil N) <= 120
  /\ truncateDescription (Some []) = lit "No description available"
  /\ truncateDescription (Some []) <> [].
Proof.
  split; [apply Nat.le_0_l|]. split; [reflexivity | discriminate].
Qed.

(** C5, amended. [truncateDescription] returns the placeholder text when
    the description is null or the empty string; returns a non-empty
    description of at most 120 code units unchanged (so a 50-character
    one); and returns the first 120 code units followed by [...] for any
    longer description (so a 130-character one becomes 123 long). *)
Theorem truncate_description_cases (d : jsstring) :
  truncateDescription None = lit "No description available"
  /\ truncateDescription (Some []) = lit "No description available"
  /\ (d <> [] -> List.length d <= 120 -> truncateDescription (Some d) = d)
  /\ (120 < List.length d ->
      truncateDescription (Some d) = firstn 120 d ++ lit "..."
      /\ List.length (truncateDescription (Some d)) = 123)
  /\ truncateDescription (Some (repeat 97%N 50)) = repeat 97%N 50
  /\ truncateDescription (Some (repeat 97%N 130)) = repeat 97%N 120 ++ lit "...".
Proof.
  split; [reflexivity|]. split; [reflexivity|].
  split; [|split; [|split; reflexivity]].
  - intros Hne Hlen. unfold truncateDescription, truncateDescriptionTo.
    destruct d as [|c d]; [congruence|]. cbn [truthy_opt truthy negb].
    apply Nat.ltb_ge in Hlen. now rewrite Hlen.
  - intros Hlen. unfold truncateDescription, truncateDescriptionTo.
    destruct d as [|c d]; [simpl in Hlen; lia|]. cbn [truthy_opt truthy negb].
    assert (Hlt := proj2 (Nat.ltb_lt _ _) Hlen). rewrite Hlt.
    unfold substring0. split; [reflexivity|].
    rewrite length_app, length_firstn. simpl List.length in *. lia.
Qed.

Lemma truncate_description_cases_witness :
  truncateDescription (Some (lit "A personal blog")) = lit "A personal blog"
  /\ List.length (truncateDescription (Some (repeat 98%N 121))) = 123.
Proof.
  split.
  - apply (proj1 (proj2 (proj2 (truncate_description_cases (lit "A personal blog"))))).
    + discriminate.
    + vm_compute. lia.
  - apply (proj1 (proj2 (proj2 (proj2 (truncate_description_cases (repeat 98%N 121)))))).
    vm_compute. lia.
Defined.

(** ** Failing fetches *)

(** C6. For every failing fetch (rejected request, non-success status, or
    unusable body) the handler leaves the stored list, the filtered list,
    the search term and the username as they were: the resulting state is
    the previous one with [loading] false and [error] set to the message.
    This holds in particular right after a successful fetch, whose stored
    list then stays; and when no fetch was in flight the result region
    rendered afterwards is the one rendered before. *)
Theorem failure_keeps_stored_list
    (formatDate : jsstring -> jsstring)
    (token : option jsstring) (fr : FetchResult) (st : State) :
  ~ Blank (username st) -> Failing fr ->
  (exists msg,
     fst (fetchGitHubPages token fr st) = withOutcome st (Some msg))
  /\ repos (fst (fetchGitHubPages token fr st)) = repos st
  /\ filteredRepos (fst (fetchGitHubPages token fr st)) = filteredRepos st
  /\ (loading st = false ->
      mainRegion formatDate (fst (fetchGitHubPages token fr st))
      = mainRegion formatDate st)
  /\ (forall token0 r0 allRepos st0,
        ok r0 = true -> json r0 = inr allRepos ->
        st = fst (fetchGitHubPages token0 (inr r0) st0) ->
        repos (fst (fetchGitHubPages token fr st)) = filter has_pages allRepos).
Proof.
  intros Hu Hf.
  destruct (tryBlock_failing token Hf) as [err Herr].
  assert (E := fetch_state token fr st Hu). rewrite Herr in E.
  rewrite E. split; [now exists (errorText err)|].
  split; [reflexivity|]. split; [reflexivity|]. split.
  - intros Hl. unfold mainRegion, resultRegion. simpl. now rewrite Hl.
  - intros token0 r0 allRepos st0 Hok Hjson Hst. simpl.
    assert (Hu0 : ~ Blank (username st0)).
    { intros Hb. rewrite (fetch_blank token0 (inr r0) st0 Hb) in Hst.
      simpl in Hst. subst st0. contradiction. }
    rewrite Hst.
    now rewrite (success_state token0 r0 st0 Hu0 Hok Hjson).
Qed.

Lemma failure_keeps_stored_list_witness :
  repos (fst (fetchGitHubPages None (inl (ErrorObject (lit "Failed to fetch")))
                readyState))
  = [siteRepo; blogRepo]
  /\ repos (fst (fetchGitHubPages None (inr (failResponse 404)) readyState))
     = [siteRepo; blogRepo].
Proof.
  split.
  - apply (proj1 (proj2 (failure_keeps_stored_list (fun s => s) None
                           (fr := inl (ErrorObject (lit "Failed to fetch")))
                           readyState
                           (proj2 (not_Blank_trim (lit "octocat")) eq_refl)
                           (Failing_network _)))).
  - apply (proj1 (proj2 (failure_keeps_stored_list (fun s => s) None
                           (fr := inr (failResponse 404))
                           readyState
                           (proj2 (not_Blank_trim (lit "octocat")) eq_refl)
                           (Failing_status (failResponse 404) eq_refl)))).
Defined.

(** ** The request *)

(** C7, as stated, fails: with the credential [abc] configured, the value
    of the [Authorization] header is [token abc], not the credential. *)
Lemma authorization_value_counterexample :
  ~ Blank (lit "abc")
  /\ snd (fetchGitHubPages (Some (lit "abc")) (inr (okResponse [])) readyState)
     = [HttpGet (lit "https://api.github.com/users/octocat/repos?per_page=100")
                [(lit "Authorization", lit "token abc")]]
  /\ lit "token abc" <> lit "abc".
Proof.
  split; [|split].
  - apply (proj2 (not_Blank_trim (lit "abc"))). reflexivity.
  - reflexivity.
  - discriminate.
Qed.

(** C7, amended. Every fetch issues exactly one GET request, to the
    listing URL of the username.  When the configured credential is not
    blank, the request carries the single header [Authorization] whose
    value is the word [token], a space, and the credential with
    surrounding white space removed.  When no credential is configured, or
    a blank one, the request carries no header at all (so no
    [Authorization] header) and a warning is logged first. *)
Theorem authorization_header
    (token : option jsstring) (fr : FetchResult) (st : State) :
  ~ Blank (username st) ->
  (forall t, token = Some t -> ~ Blank t ->
     snd (fetchGitHubPages token fr st)
     = [HttpGet (requestUrl (username st))
                [(lit "Authorization", lit "token " ++ trim t)]])
  /\ (token = None \/ (exists t, token = Some t /\ Blank t) ->
      exists warning,
        snd (fetchGitHubPages token fr st)
        = [ConsoleWarn warning; HttpGet (requestUrl (username st)) []])
  /\ requestUrl (username st)
     = lit "https://api.github.com/users/" ++ username st
       ++ lit "/repos?per_page=100".
Proof.
  intros Hu. rewrite (fetch_effects token fr st Hu).
  split; [|split; [|reflexivity]].
  - intros t -> Ht. apply not_Blank_trim in Ht. simpl.
    rewrite (trim_truthy_source t Ht), Ht. reflexivity.
  - intros H. apply hasToken_false_iff in H.
    unfold prepareHeaders. destruct token as [t|].
    + simpl in H. rewrite H. simpl. eauto.
    + simpl. eauto.
Qed.

Lemma authorization_header_witness :
  snd (fetchGitHubPages (Some (lit " ghp_secret ")) (inr (okResponse []))
         readyState)
  = [HttpGet (lit "https://api.github.com/users/octocat/repos?per_page=100")
             [(lit "Authorization", lit "token ghp_secret")]].
Proof.
  apply (proj1 (authorization_header (Some (lit " ghp_secret "))
                  (inr (okResponse [])) readyState
                  (proj2 (not_Blank_trim (lit "octocat")) eq_refl))
           (lit " ghp_secret ") eq_refl).
  apply (proj2 (not_Blank_trim (lit " ghp_secret "))). reflexivity.
Defined.

(** ** Rendering *)

Lemma not_Blank_truthy (s : jsstring) : ~ Blank s -> truthy s = true.
Proof.
  intros H. apply trim_truthy_source. now apply not_Blank_trim.
Qed.

(** C9. When the stored list is not empty and the current search term
    filters it down to nothing, the branches after the loading test
    (lines 171-238) yield nothing: neither the card grid nor the
    empty-state message, whose branch requires the stored list to be
    empty.  With no fetch in flight this is the whole region. *)
Theorem filtered_out_renders_nothing
    (lower formatDate : jsstring -> jsstring) (st : State) :
  repos st <> [] ->
  filterRepos lower (searchTerm st) (repos st) = [] ->
  resultRegion formatDate (filterEffect lower st) = Nothing
  /\ (loading st = false ->
      mainRegion formatDate (filterEffect lower st) = Nothing).
Proof.
  intros Hne Hnil.
  assert (E : resultRegion formatDate (filterEffect lower st) = Nothing).
  { unfold resultRegion, filterEffect. simpl. rewrite Hnil. simpl.
    destruct (repos st) as [|x xs]; [congruence|].
    simpl. now rewrite andb_false_r. }
  split; [exact E|].
  intros Hl. unfold mainRegion. simpl. now rewrite Hl.
Qed.

Lemma filtered_out_renders_nothing_witness :
  mainRegion (fun s => s)
    (filterEffect asciiToLowerCase (setSearchTerm (lit "zzz") readyState))
  = Nothing.
Proof.
  apply (proj2 (filtered_out_renders_nothing asciiToLowerCase (fun s => s)
                  (setSearchTerm (lit "zzz") readyState)
                  ltac:(discriminate) eq_refl)).
  reflexivity.
Defined.

(** ** The guard on the username *)

(** C10. When the username is empty or consists only of white space, the
    handler returns at once: no effect is issued (no HTTP request, no
    warning) and the state, with its stored list, filtered list, loading
    flag and error message, is returned unchanged. *)
Theorem blank_username_is_noop
    (token : option jsstring) (fr : FetchResult) (st : State) :
  Blank (username st) ->
  fetchGitHubPages token fr st = (st, [])
  /\ (forall url headers,
        ~ In (HttpGet url headers) (snd (fetchGitHubPages token fr st))).
Proof.
  intros Hb. rewrite (fetch_blank token fr st Hb). split; [reflexivity|].
  intros url headers [].
Qed.

Lemma blank_username_is_noop_witness :
  fetchGitHubPages None (inr (okResponse [blogRepo]))
    (setUsername (lit "   ") readyState)
  = (setUsername (lit "   ") readyState, [])
  /\ fetchGitHubPages None (inr (okResponse [blogRepo]))
       (setUsername [] readyState)
     = (setUsername [] readyState, []).
Proof.
  split.
  - apply (proj1 (blank_username_is_noop None (inr (okResponse [blogRepo]))
                    (setUsername (lit "   ") readyState)
                    (proj1 (trim_nil_iff (lit "   ")) eq_refl))).
  - apply (proj1 (blank_username_is_noop None (inr (okResponse [blogRepo]))
                    (setUsername [] readyState)
                    (proj1 (trim_nil_iff []) eq_refl))).
Defined.

(** * Further properties of the component *)

(** ** Description truncation: bounds and stability *)

Lemma placeholder_length :
  List.length (lit "No description available") = 24.
Proof. reflexivity. Qed.

(** X1. Whatever the description and the cut-off, the text shown is never
    empty and is at most [max 24 (maxLength + 3)] code units long (24 is
    the length of the placeholder); with the default cut-off it is at most
    123 long. *)
Theorem truncate_length_bounds
    (description : option jsstring) (maxLength : nat) :
  1 <= List.length (truncateDescriptionTo description maxLength)
  /\ List.length (truncateDescriptionTo description maxLength)
     <= Nat.max 24 (maxLength + 3)
  /\ List.length (truncateDescription description) <= 123.
Proof.
  assert (B : forall m,
             1 <= List.length (truncateDescriptionTo description m)
             <= Nat.max 24 (m + 3)).
  { intros m. unfold truncateDescriptionTo.
    destruct description as [[|c d]|]; cbn [truthy_opt truthy negb];
      try (rewrite placeholder_length; lia).
    destruct (Nat.ltb m (List.length (c :: d))) eqn:E.
    - apply Nat.ltb_lt in E. unfold substring0.
      rewrite length_app, length_firstn.
      change (List.length (lit "...")) with 3. lia.
    - apply Nat.ltb_ge in E. simpl List.length in *. lia. }
  split; [apply B|]. split; [apply B|].
  unfold truncateDescription. specialize (B 120). lia.
Qed.

(** X2. With the default cut-off, truncating the text already shown gives
    the same text again. *)
Theorem truncate_idempotent (description : option jsstring) :
  truncateDescription (Some (truncateDescription description))
  = truncateDescription description.
Proof.
  unfold truncateDescription, truncateDescriptionTo.
  destruct description as [[|c d]|]; cbn [truthy_opt truthy negb];
    try reflexivity.
  destruct (Nat.ltb 120 (List.length (c :: d))) eqn:E.
  - apply Nat.ltb_lt in E. unfold substring0.
    assert (L : List.length (firstn 120 (c :: d)) = 120)
      by (rewrite length_firstn; lia).
    destruct (firstn 120 (c :: d) ++ lit "...") as [|x xs] eqn:F.
    { apply (f_equal (@List.length N)) in F.
      rewrite length_app, L in F. discriminate F. }
    cbn [truthy_opt truthy negb]. rewrite <- F.
    assert (G : Nat.ltb 120 (List.length (firstn 120 (c :: d) ++ lit "..."))
                = true).
    { apply Nat.ltb_lt. rewrite length_app, L. simpl. lia. }
    rewrite G. f_equal.
    rewrite firstn_app, L, firstn_firstn. simpl. now rewrite app_nil_r.
  - cbn [truthy_opt truthy negb]. now rewrite E.
Qed.

(** ** The site link *)

Lemma getPageUrl_cases (user : jsstring) (repo : GitHubRepo) :
  (exists h, homepage repo = Some h /\ Prefix (lit "http") h
             /\ getPageUrl user repo = h)
  \/ ((forall h, homepage repo = Some h -> ~ Prefix (lit "http") h)
      /\ getPageUrl user repo = pagesUrl user repo).
Proof.
  unfold getPageUrl, pagesUrl. destruct (homepage repo) as [h|].
  - destruct (startsWith h (lit "http")) eqn:E.
    + left. exists h. assert (P := proj1 (startsWith_Prefix _ _) E).
      destruct h; [discriminate E|]. simpl. auto.
    + right. rewrite andb_false_r. split; [|reflexivity].
      intros h' [= <-] P. apply startsWith_Prefix in P. congruence.
  - right. split; [discriminate | reflexivity].
Qed.

(** X3. The site link of every entry begins with [http], whatever the
    homepage and the username are. *)
Theorem site_link_has_http_scheme (user : jsstring) (repo : GitHubRepo) :
  Prefix (lit "http") (getPageUrl user repo).
Proof.
  destruct (getPageUrl_cases user repo) as [[h [_ [P ->]]] | [_ ->]].
  - exact P.
  - unfold pagesUrl. exists (lit "s://" ++ user ++ lit ".github.io/" ++ name repo).
    reflexivity.
Qed.

(** X4. The site link is built from the username currently typed, not from
    the owner of the entry: two usernames give the same site link exactly
    when the entry has a homepage beginning with [http] or the usernames
    are equal. *)
Theorem site_link_follows_username
    (user1 user2 : jsstring) (repo : GitHubRepo) :
  getPageUrl user1 repo = getPageUrl user2 repo
  <-> (exists h, homepage repo = Some h /\ Prefix (lit "http") h)
      \/ user1 = user2.
Proof.
  split.
  - intros E.
    destruct (getPageUrl_cases user1 repo) as [[h [Hh [P _]]] | [_ E1]].
    + left. now exists h.
    + destruct (getPageUrl_cases user2 repo) as [[h [Hh [P _]]] | [_ E2]].
      * left. now exists h.
      * right. rewrite E1, E2 in E. unfold pagesUrl in E.
        apply app_inv_head in E. now apply app_inv_tail in E.
  - intros [[h [Hh P]] | ->]; [|reflexivity].
    destruct (getPageUrl_cases user1 repo) as [[h1 [Hh1 [_ ->]]] | [N1 _]];
      [|exfalso; exact (N1 h Hh P)].
    destruct (getPageUrl_cases user2 repo) as [[h2 [Hh2 [_ ->]]] | [N2 _]];
      [congruence | exfalso; exact (N2 h Hh P)].
Qed.

(** ** The error path *)

(** X5. The body of a non-success response is never read: two responses
    with the [ok] flag false and the same status lead to the same state
    and the same effects, whatever their bodies. *)
Theorem non_success_body_ignored
    (token : option jsstring) (r1 r2 : Response) (st : State) :
  ok r1 = false -> ok r2 = false -> status r1 = status r2 ->
  fetchGitHubPages token (inr r1) st = fetchGitHubPages token (inr r2) st.
Proof.
  intros H1 H2 Hs. unfold fetchGitHubPages.
  now rewrite (tryBlock_status token r1 H1), (tryBlock_status token r2 H2), Hs.
Qed.

Lemma non_success_body_ignored_witness :
  fetchGitHubPages None (inr (failResponse 404)) readyState
  = fetchGitHubPages None
      (inr {| ok := false; status := 404; json := inr [blogRepo] |}) readyState.
Proof.
  apply (non_success_body_ignored None (failResponse 404)
           {| ok := false; status := 404; json := inr [blogRepo] |}
           readyState eq_refl eq_refl eq_refl).
Defined.

Lemma status_message_prefix (token : option jsstring) (r : Response) :
  ok r = false ->
  exists rest,
    tryBlock token (inr r)
    = inl (ErrorObject (genericMessage (status r) ++ rest)).
Proof.
  intros Hok. rewrite (tryBlock_status token r Hok).
  destruct (status r =? 403)%N; [destruct (hasToken token)|].
  - eexists. unfold tokenRejectedMessage, genericMessage.
    rewrite <- app_assoc. reflexivity.
  - eexists. unfold rateLimitMessage, genericMessage.
    rewrite <- app_assoc. reflexivity.
  - exists []. now rewrite app_nil_r.
Qed.

(** X8. The message of a thrown [Error] is stored verbatim, whether the
    request was rejected or the body could not be read; any other thrown
    value is reported as [An error occurred]. *)
Theorem thrown_value_reporting
    (token : option jsstring) (e : Thrown) (r : Response) (st : State) :
  ~ Blank (username st) -> ok r = true -> json r = inl e ->
  error (fst (fetchGitHubPages token (inl e) st)) = Some (errorText e)
  /\ error (fst (fetchGitHubPages token (inr r) st)) = Some (errorText e)
  /\ (forall m, e = ErrorObject m -> errorText e = m)
  /\ (e = OtherThrown -> errorText e = lit "An error occurred").
Proof.
  intros Hu Hok Hjson.
  rewrite !(fetch_state token _ st Hu).
  unfold tryBlock, checkResponse. simpl. rewrite Hok. simpl. rewrite Hjson.
  repeat split; now intros; subst.
Qed.

Lemma thrown_value_reporting_witness :
  error (fst (fetchGitHubPages None (inl OtherThrown) readyState))
  = Some (lit "An error occurred").
Proof.
  apply (proj1 (thrown_value_reporting None (e := OtherThrown)
                  {| ok := true; status := 200; json := inl OtherThrown |}
                  readyState
                  (proj2 (not_Blank_trim (lit "octocat")) eq_refl)
                  eq_refl eq_refl)).
Defined.

(** ** Searching *)

Lemma Substring_trans (a b c : jsstring) :
  Substring a b -> Substring b c -> Substring a c.
Proof.
  intros [p1 [q1 ->]] [p2 [q2 ->]].
  exists (p2 ++ p1), (q1 ++ q2). now rewrite <- !app_assoc.
Qed.

Lemma includes_trans (s t t' : jsstring) :
  Substring t t' -> includes s t' = true -> includes s t = true.
Proof.
  intros Htt' H. apply includes_Substring.
  apply includes_Substring in H. exact (Substring_trans Htt' H).
Qed.

Lemma matchesSearch_narrow (lower : jsstring -> jsstring)
    (t t' : jsstring) (r : GitHubRepo) :
  Substring (lower t) (lower t') ->
  matchesSearch lower t' r = true -> matchesSearch lower t r = true.
Proof.
  intros Hs. unfold matchesSearch. rewrite !orb_true_iff.
  intros [H | H].
  - left. exact (includes_trans _ Hs H).
  - right. destruct (description r) as [d|]; [|discriminate].
    apply andb_true_iff in H. destruct H as [Hd H].
    rewrite Hd. exact (includes_trans _ Hs H).
Qed.

Lemma filter_filter_implied (A : Type) (p q : A -> bool) (l : list A) :
  (forall x, q x = true -> p x = true) ->
  filter q (filter p l) = filter q l.
Proof.
  intros H. induction l as [|a l IH]; simpl; [reflexivity|].
  destruct (p a) eqn:Ep; simpl.
  - now rewrite IH.
  - destruct (q a) eqn:Eq; [|exact IH].
    apply H in Eq. congruence.
Qed.

(** X9. Refining the term only narrows the result: when the lower-cased
    old term occurs in the lower-cased new term, the entries selected by
    the new term are those the new term selects among the entries the old
    term selected, so none appears that the old term had hidden. *)
Theorem refining_term_narrows
    (lower : jsstring -> jsstring) (t t' : jsstring) (rs : list GitHubRepo) :
  Substring (lower t) (lower t') ->
  filterRepos lower t' rs = filterRepos lower t' (filterRepos lower t rs)
  /\ (forall r, In r (filterRepos lower t' rs) -> In r (filterRepos lower t rs))
  /\ List.length (filterRepos lower t' rs)
     <= List.length (filterRepos lower t rs).
Proof.
  intros Hs.
  assert (E : filterRepos lower t' rs
              = filterRepos lower t' (filterRepos lower t rs)).
  { unfold filterRepos. symmetry. apply filter_filter_implied.
    intros r. now apply matchesSearch_narrow. }
  split; [exact E|]. split.
  - intros r. rewrite E. unfold filterRepos at 1. intros H.
    now apply filter_In in H.
  - rewrite E. unfold filterRepos at 1. apply filter_length_le.
Qed.

Lemma refining_term_narrows_witness :
  List.length (filterRepos asciiToLowerCase (lit "Blo") [siteRepo; blogRepo])
  <= List.length (filterRepos asciiToLowerCase (lit "b") [siteRepo; blogRepo]).
Proof.
  apply (proj2 (proj2 (refining_term_narrows asciiToLowerCase
                         (lit "b") (lit "Blo") [siteRepo; blogRepo]
                         (ex_intro _ [] (ex_intro _ (lit "lo") eq_refl))))).
Defined.

(** X10. A fetch does not reset the search term: the new list is filtered
    by the term typed before.  So when the response has pages-enabled
    entries but none matches that term, the region is empty (no grid, no
    empty-state message) while the search box stays visible. *)
Theorem stale_search_term_hides_new_list
    (lower formatDate : jsstring -> jsstring)
    (token : option jsstring) (r : Response) (allRepos : list GitHubRepo)
    (st : State) :
  ~ Blank (username st) -> ok r = true -> json r = inr allRepos ->
  filter has_pages allRepos <> [] ->
  filterRepos lower (searchTerm st) (filter has_pages allRepos) = [] ->
  searchTerm (fetchAndSettle lower token (inr r) st) = searchTerm st
  /\ mainRegion formatDate (fetchAndSettle lower token (inr r) st) = Nothing
  /\ searchBox (render formatDate (fetchAndSettle lower token (inr r) st))
     = true.
Proof.
  intros Hu Hok Hjson Hne Hnone. unfold fetchAndSettle.
  rewrite (success_state token r st Hu Hok Hjson).
  unfold mainRegion, resultRegion, filterEffect. simpl. rewrite Hnone.
  destruct (filter has_pages allRepos) as [|x xs]; [congruence|].
  repeat split.
Qed.

Lemma stale_search_term_hides_new_list_witness :
  mainRegion (fun s => s)
    (fetchAndSettle asciiToLowerCase None (inr (okResponse [blogRepo]))
       (setSearchTerm (lit "site") readyState))
  = Nothing.
Proof.
  apply (proj1 (proj2 (stale_search_term_hides_new_list asciiToLowerCase
                         (fun s => s) None (okResponse [blogRepo])
                         (setSearchTerm (lit "site") readyState)
                         (proj2 (not_Blank_trim (lit "octocat")) eq_refl)
                         eq_refl eq_refl ltac:(discriminate) eq_refl))).
Defined.

(** ** The card grid *)

(** X11. When no fetch is loading and the filtered list is not empty, the
    region is the card grid: one card per filtered entry, in order, titled
    by its name; the count in the summary line is the number of cards, and
    the noun is [repository] exactly when there is one card. *)
Theorem grid_summary_matches_cards
    (formatDate : jsstring -> jsstring) (st : State) :
  loading st = false -> filteredRepos st <> [] ->
  exists noun cards,
    mainRegion formatDate st = Grid (List.length cards) noun cards
    /\ cards = map (renderCard formatDate (username st)) (filteredRepos st)
    /\ map (@cardTitle) cards = map name (filteredRepos st)
    /\ List.length cards = List.length (filteredRepos st)
    /\ (noun = lit "repository" <-> List.length cards = 1)
    /\ (noun = lit "repositories" <-> List.length cards <> 1).
Proof.
  intros Hl Hne. unfold mainRegion, resultRegion. rewrite Hl.
  destruct (filteredRepos st) as [|r rs] eqn:E; [congruence|].
  cbn [List.length Nat.ltb Nat.leb].
  exists (if Nat.eqb (S (List.length rs)) 1
          then lit "repository" else lit "repositories"),
         (map (renderCard formatDate (username st)) (r :: rs)).
  rewrite length_map, map_map. cbn [List.length].
  split; [reflexivity|]. split; [reflexivity|].
  split; [reflexivity|]. split; [reflexivity|].
  destruct (Nat.eqb (S (List.length rs)) 1) eqn:Q.
  - apply Nat.eqb_eq in Q. split; split; intros H; try reflexivity;
      try exact Q; try discriminate H; contradiction.
  - apply Nat.eqb_neq in Q. split; split; intros H; try reflexivity;
      try exact Q; try discriminate H; contradiction.
Qed.

Lemma grid_summary_matches_cards_witness :
  exists noun cards,
    mainRegion (fun s => s) readyState = Grid (List.length cards) noun cards
    /\ cards = map (renderCard (fun s => s) (username readyState))
                 (filteredRepos readyState)
    /\ map (@cardTitle) cards = map name (filteredRepos readyState)
    /\ List.length cards = List.length (filteredRepos readyState)
    /\ (noun = lit "repository" <-> List.length cards = 1)
    /\ (noun = lit "repositories" <-> List.length cards <> 1).
Proof.
  apply (grid_summary_matches_cards (fun s => s) readyState eq_refl).
  discriminate.
Defined.

(** ** The two phases of a fetch *)

Lemma jsstring_eqb_true_iff (a b : jsstring) :
  jsstring_eqb a b = true <-> a = b.
Proof.
  unfold jsstring_eqb. destruct (list_eq_dec N.eq_dec a b); split; congruence.
Qed.

Lemma jsstring_eqb_refl (a : jsstring) : jsstring_eqb a a = true.
Proof. now apply jsstring_eqb_true_iff. Qed.

Lemma jsstring_eqb_neq (a b : jsstring) : a <> b -> jsstring_eqb a b = false.
Proof.
  intros H. destruct (jsstring_eqb a b) eqn:E; [|reflexivity].
  apply jsstring_eqb_true_iff in E. contradiction.
Qed.

Lemma beginFetch_blank (token : option jsstring) (st : State) :
  Blank (username st) -> beginFetch token st = None.
Proof.
  intros H. unfold beginFetch. apply truthy_trim_false_iff in H. now rewrite H.
Qed.

Lemma beginFetch_some (token : option jsstring) (st : State) :
  ~ Blank (username st) ->
  beginFetch token st
  = Some (setError None (setLoading true st),
          snd (prepareHeaders token)
          ++ [HttpGet (requestUrl (username st)) (fst (prepareHeaders token))]).
Proof.
  intros H. unfold beginFetch. apply not_Blank_trim in H. rewrite H. simpl.
  now destruct (prepareHeaders token).
Qed.

Lemma fetch_two_phases (token : option jsstring) (fr : FetchResult)
    (st : State) :
  fetchGitHubPages token fr st
  = match beginFetch token st with
    | None => (st, [])
    | Some (st1, effects) => (resolveFetch token fr st1, effects)
    end.
Proof.
  unfold fetchGitHubPages, beginFetch, resolveFetch.
  destruct (negb (truthy (trim (username st)))); [reflexivity|].
  now destruct (prepareHeaders token).
Qed.

Lemma filterEffect_fixed (lower : jsstring -> jsstring) (st : State) :
  filteredRepos st = filterRepos lower (searchTerm st) (repos st) ->
  filterEffect lower st = st.
Proof.
  intros H. unfold filterEffect, setFilteredRepos. rewrite <- H.
  now destruct st.
Qed.

Lemma Blank_dec (s : jsstring) : {Blank s} + {~ Blank s}.
Proof.
  destruct (truthy (trim s)) eqn:E.
  - right. now apply not_Blank_trim.
  - left. now apply truthy_trim_false_iff.
Qed.

Lemma run_cons (lower : jsstring -> jsstring) (token : option jsstring)
    (ev : Event) (rest : list Event) (w : World) :
  run lower token (ev :: rest) w
  = (fst (run lower token rest (fst (step lower token ev w))),
     snd (step lower token ev w)
     ++ snd (run lower token rest (fst (step lower token ev w)))).
Proof.
  cbn [run]. destruct (step lower token ev w) as [w1 e1]. cbn [fst snd].
  now destruct (run lower token rest w1).
Qed.

Lemma run_nil (lower : jsstring -> jsstring) (token : option jsstring)
    (w : World) :
  run lower token [] w = (w, []).
Proof. reflexivity. Qed.

Lemma step_enter (lower : jsstring -> jsstring) (token : option jsstring)
    (w : World) :
  step lower token (KeyDown (lit "Enter")) w = startFetch token w.
Proof.
  unfold step. now rewrite jsstring_eqb_refl.
Qed.

Lemma startFetch_blank (token : option jsstring) (w : World) :
  Blank (username (ui w)) -> startFetch token w = (w, []).
Proof.
  intros H. unfold startFetch. now rewrite (beginFetch_blank token (ui w) H).
Qed.

Lemma startFetch_nonblank (token : option jsstring) (w : World) :
  ~ Blank (username (ui w)) ->
  startFetch token w
  = ({| ui := setError None (setLoading true (ui w));
        inflight := inflight w ++ [requestUrl (username (ui w))] |},
     snd (prepareHeaders token)
     ++ [HttpGet (requestUrl (username (ui w))) (fst (prepareHeaders token))]).
Proof.
  intros H. unfold startFetch. now rewrite (beginFetch_some token (ui w) H).
Qed.

(** X12. Pressing Enter and then receiving the answer, with no other
    event in between and no other request open, leaves the page in the
    state that one uninterrupted run of the handler followed by the
    filtering effect gives, with the same effects. *)
Theorem enter_then_answer_is_one_fetch
    (lower : jsstring -> jsstring) (token : option jsstring)
    (fr : FetchResult) (w : World) :
  ~ Blank (username (ui w)) -> inflight w = [] ->
  filteredRepos (ui w) = filterRepos lower (searchTerm (ui w)) (repos (ui w)) ->
  run lower token [KeyDown (lit "Enter"); Resolve 0 fr] w
  = ({| ui := fetchAndSettle lower token fr (ui w); inflight := [] |},
     snd (fetchGitHubPages token fr (ui w))).
Proof.
  intros Hu Hin Hsync. unfold fetchAndSettle.
  rewrite (fetch_two_phases token fr (ui w)).
  rewrite !run_cons, run_nil, step_enter.
  rewrite (startFetch_nonblank token w Hu), (beginFetch_some token (ui w) Hu).
  rewrite Hin. cbn [fst snd app]. unfold step. cbn [inflight nth_error ui].
  cbn [fst snd removeNth]. rewrite !app_nil_r. f_equal. f_equal.
  unfold resolveFetch.
  destruct (tryBlock token fr) as [err|pagesRepos]; [|reflexivity].
  symmetry. apply filterEffect_fixed. exact Hsync.
Qed.

Lemma enter_then_answer_is_one_fetch_witness :
  run asciiToLowerCase None
    [KeyDown (lit "Enter"); Resolve 0 (inr (okResponse [toolRepo; blogRepo]))]
    {| ui := readyState; inflight := [] |}
  = ({| ui := fetchAndSettle asciiToLowerCase None
                (inr (okResponse [toolRepo; blogRepo])) readyState;
        inflight := [] |},
     snd (fetchGitHubPages None (inr (okResponse [toolRepo; blogRepo]))
            readyState)).
Proof.
  apply (enter_then_answer_is_one_fetch asciiToLowerCase None
           (inr (okResponse [toolRepo; blogRepo]))
           {| ui := readyState; inflight := [] |}
           (proj2 (not_Blank_trim (lit "octocat")) eq_refl) eq_refl eq_refl).
Defined.

(** X14. Completing a fetch successfully does not clear the error cell;
    only starting one does.  So when two requests are open and one fails
    before the other succeeds, the page ends with the fresh list and the
    error banner of the failed one. *)
Theorem overlapping_failure_then_success
    (formatDate : jsstring -> jsstring) (token : option jsstring)
    (r1 r2 : Response) (allRepos : list GitHubRepo) (st : State) :
  ok r1 = false -> ok r2 = true -> json r2 = inr allRepos ->
  exists msg,
    resolveFetch token (inr r1) st = withOutcome st (Some msg)
    /\ resolveFetch token (inr r2) (resolveFetch token (inr r1) st)
       = setRepos (filter has_pages allRepos) (withOutcome st (Some msg))
    /\ errorBanner (render formatDate
                      (resolveFetch token (inr r2)
                         (resolveFetch token (inr r1) st)))
       = Some (lit "Error: " ++ msg).
Proof.
  intros H1 H2 Hjson.
  destruct (status_message_prefix token r1 H1) as [rest E].
  exists (genericMessage (status r1) ++ rest).
  unfold resolveFetch. rewrite E, (tryBlock_success token r2 H2 Hjson).
  repeat split.
Qed.

Lemma overlapping_failure_then_success_witness :
  exists msg,
    resolveFetch None (inr (failResponse 500)) readyState
    = withOutcome readyState (Some msg)
    /\ resolveFetch None (inr (okResponse [blogRepo]))
         (resolveFetch None (inr (failResponse 500)) readyState)
       = setRepos (filter has_pages [blogRepo])
           (withOutcome readyState (Some msg))
    /\ errorBanner (render (fun s => s)
                      (resolveFetch None (inr (okResponse [blogRepo]))
                         (resolveFetch None (inr (failResponse 500))
                            readyState)))
       = Some (lit "Error: " ++ msg).
Proof.
  apply (overlapping_failure_then_success (fun s => s) None
           (failResponse 500) (okResponse [blogRepo]) readyState
           eq_refl eq_refl eq_refl).
Defined.

(** ** Runs of events *)

Lemma requestsOf_app (a b : list Effect) :
  requestsOf (a ++ b) = requestsOf a ++ requestsOf b.
Proof. unfold requestsOf. apply flat_map_app. Qed.

Lemma requestsOf_prepareHeaders (token : option jsstring) :
  requestsOf (snd (prepareHeaders token)) = [].
Proof.
  unfold prepareHeaders. destruct token as [t|]; [|reflexivity].
  now destruct (truthy t && truthy (trim t)).
Qed.

Lemma requestsOf_startFetch (token : option jsstring) (w : World) :
  ~ Blank (username (ui w)) ->
  requestsOf (snd (startFetch token w)) = [requestUrl (username (ui w))].
Proof.
  intros H. rewrite (startFetch_nonblank token w H). cbn [snd].
  now rewrite requestsOf_app, requestsOf_prepareHeaders.
Qed.

Lemma step_resolve (lower : jsstring -> jsstring) (token : option jsstring)
    (i : nat) (fr : FetchResult) (w : World) (url : jsstring) :
  nth_error (inflight w) i = Some url ->
  step lower token (Resolve i fr) w
  = ({| ui := match tryBlock token fr with
              | inr _ => filterEffect lower (resolveFetch token fr (ui w))
              | inl _ => resolveFetch token fr (ui w)
              end;
        inflight := removeNth i (inflight w) |}, []).
Proof.
  intros H. unfold step. now rewrite H.
Qed.

(** X15. No answer is checked against the request it belongs to.  When a
    fetch for one username is still open, the username is changed and a
    second fetch is started, and the second answer arrives before the
    first, then the first (older) answer overwrites the list: the page
    ends showing the entries of the first username under the second
    username.  Moreover the loading flag drops at the first answer to
    arrive, while a request is still open. *)
Theorem stale_answer_overwrites_newer
    (lower : jsstring -> jsstring) (token : option jsstring)
    (user2 : jsstring) (r1 r2 : Response) (all1 all2 : list GitHubRepo)
    (w : World) :
  ~ Blank (username (ui w)) -> ~ Blank user2 -> inflight w = [] ->
  ok r1 = true -> json r1 = inr all1 ->
  ok r2 = true -> json r2 = inr all2 ->
  let started :=
    [KeyDown (lit "Enter"); ChangeUsername user2; KeyDown (lit "Enter")] in
  let w4 := fst (run lower token (started ++ [Resolve 1 (inr r2)]) w) in
  let w5 := fst (run lower token
                   (started ++ [Resolve 1 (inr r2); Resolve 0 (inr r1)]) w) in
  requestsOf (snd (run lower token started w))
  = [requestUrl (username (ui w)); requestUrl user2]
  /\ (repos (ui w4) = filter has_pages all2
      /\ loading (ui w4) = false
      /\ inflight w4 = [requestUrl (username (ui w))])
  /\ (repos (ui w5) = filter has_pages all1
      /\ username (ui w5) = user2
      /\ loading (ui w5) = false
      /\ inflight w5 = []).
Proof.
  intros Hu1 Hu2 Hin Hok1 Hj1 Hok2 Hj2. cbv zeta.
  set (w1 := {| ui := setError None (setLoading true (ui w));
                inflight := inflight w ++ [requestUrl (username (ui w))] |}).
  set (w2 := {| ui := setUsername user2 (ui w1); inflight := inflight w1 |}).
  assert (S1 : step lower token (KeyDown (lit "Enter")) w
               = (w1, snd (startFetch token w))).
  { rewrite step_enter. now rewrite (startFetch_nonblank token w Hu1). }
  assert (S2 : step lower token (ChangeUsername user2) w1 = (w2, []))
    by reflexivity.
  assert (Hu2' : ~ Blank (username (ui w2))) by exact Hu2.
  set (w3 := {| ui := setError None (setLoading true (ui w2));
                inflight := inflight w2 ++ [requestUrl (username (ui w2))] |}).
  assert (S3 : step lower token (KeyDown (lit "Enter")) w2
               = (w3, snd (startFetch token w2))).
  { rewrite step_enter. now rewrite (startFetch_nonblank token w2 Hu2'). }
  assert (I3 : inflight w3 = [requestUrl (username (ui w)); requestUrl user2]).
  { unfold w3, w2, w1. cbn [inflight ui username setUsername]. now rewrite Hin. }
  assert (S4 : step lower token (Resolve 1 (inr r2)) w3
               = ({| ui := filterEffect lower (resolveFetch token (inr r2) (ui w3));
                     inflight := [requestUrl (username (ui w))] |}, [])).
  { rewrite (@step_resolve lower token 1 (inr r2) w3 (requestUrl user2));
      [|now rewrite I3].
    now rewrite (tryBlock_success token r2 Hok2 Hj2), I3. }
  set (w4 := {| ui := filterEffect lower (resolveFetch token (inr r2) (ui w3));
                inflight := [requestUrl (username (ui w))] |}) in *.
  assert (S5 : step lower token (Resolve 0 (inr r1)) w4
               = ({| ui := filterEffect lower (resolveFetch token (inr r1) (ui w4));
                     inflight := [] |}, [])).
  { rewrite (@step_resolve lower token 0 (inr r1) w4
               (requestUrl (username (ui w)))); [|reflexivity].
    now rewrite (tryBlock_success token r1 Hok1 Hj1). }
  split; [|split].
  - cbn [app]. rewrite !run_cons, run_nil, S1. cbn [fst snd]. rewrite S2.
    cbn [fst snd]. rewrite S3. cbn [fst snd app].
    rewrite app_nil_r, requestsOf_app.
    now rewrite (requestsOf_startFetch token w Hu1),
                (requestsOf_startFetch token w2 Hu2').
  - cbn [app]. rewrite !run_cons, run_nil, S1. cbn [fst snd]. rewrite S2.
    cbn [fst snd]. rewrite S3. cbn [fst snd]. rewrite S4. cbn [fst snd].
    unfold w4, resolveFetch. cbn [ui inflight].
    rewrite (tryBlock_success token r2 Hok2 Hj2). repeat split.
  - cbn [app]. rewrite !run_cons, run_nil, S1. cbn [fst snd]. rewrite S2.
    cbn [fst snd]. rewrite S3. cbn [fst snd]. rewrite S4. cbn [fst snd].
    rewrite S5. cbn [fst snd ui inflight].
    unfold w4, resolveFetch. cbn [ui].
    rewrite (tryBlock_success token r1 Hok1 Hj1),
            (tryBlock_success token r2 Hok2 Hj2).
    repeat split.
Qed.

Lemma stale_answer_overwrites_newer_witness :
  repos (ui (fst (run asciiToLowerCase None
                    [KeyDown (lit "Enter"); ChangeUsername (lit "mona");
                     KeyDown (lit "Enter");
                     Resolve 1 (inr (okResponse [siteRepo]));
                     Resolve 0 (inr (okResponse [blogRepo]))]
                    {| ui := readyState; inflight := [] |})))
  = [blogRepo].
Proof.
  apply (proj1 (proj2 (proj2
           (stale_answer_overwrites_newer asciiToLowerCase None
              (user2 := lit "mona") (okResponse [blogRepo])
              (okResponse [siteRepo])
              {| ui := readyState; inflight := [] |}
              (proj2 (not_Blank_trim (lit "octocat")) eq_refl)
              (proj2 (not_Blank_trim (lit "mona")) eq_refl)
              eq_refl eq_refl eq_refl eq_refl eq_refl)))).
Defined.

Lemma Consistent_filterEffect (lower : jsstring -> jsstring) (st : State) :
  Forall (fun r => has_pages r = true) (repos st) ->
  Consistent lower (filterEffect lower st).
Proof.
  intros H. split; [exact H | reflexivity].
Qed.

Lemma Forall_has_pages_filter (l : list GitHubRepo) :
  Forall (fun r => has_pages r = true) (filter has_pages l).
Proof.
  apply Forall_forall. intros r H. now apply filter_In in H.
Qed.

Lemma startFetch_ui (token : option jsstring) (w : World) :
  ui (fst (startFetch token w)) = ui w
  \/ ui (fst (startFetch token w)) = setError None (setLoading true (ui w)).
Proof.
  destruct (Blank_dec (username (ui w))) as [Hb | Hn].
  - left. now rewrite (startFetch_blank token w Hb).
  - right. now rewrite (startFetch_nonblank token w Hn).
Qed.

Lemma Consistent_startFetch (lower : jsstring -> jsstring)
    (token : option jsstring) (w : World) :
  Consistent lower (ui w) -> Consistent lower (ui (fst (startFetch token w))).
Proof.
  intros H. destruct (startFetch_ui token w) as [-> | ->]; exact H.
Qed.

Lemma step_Consistent (lower : jsstring -> jsstring)
    (token : option jsstring) (ev : Event) (w : World) :
  Consistent lower (ui w) ->
  Consistent lower (ui (fst (step lower token ev w))).
Proof.
  intros H. destruct ev as [|v|v|key| |i fr]; unfold step.
  - pose proof (Consistent_startFetch token w H) as [Hp _].
    destruct (startFetch token w) as [w1 effects]. cbn [fst ui] in *.
    now apply Consistent_filterEffect.
  - exact H.
  - destruct (Nat.ltb 0 (List.length (repos (ui w)))); [|exact H].
    destruct (jsstring_eqb v (searchTerm (ui w))); [exact H|].
    cbn [fst ui]. apply Consistent_filterEffect. exact (proj1 H).
  - destruct (jsstring_eqb key (lit "Enter")); [|exact H].
    now apply Consistent_startFetch.
  - destruct (fetchButtonDisabled (ui w)); [exact H|].
    now apply Consistent_startFetch.
  - destruct (nth_error (inflight w) i); [|exact H].
    cbn [fst ui]. unfold resolveFetch.
    destruct (tryBlock token fr) as [err | pagesRepos] eqn:E.
    + exact H.
    + apply Consistent_filterEffect. cbn [repos setLoading setRepos].
      destruct fr as [e | r]; [discriminate E|].
      unfold tryBlock, bind in E.
      destruct (checkResponse token r); [discriminate E|].
      destruct (json r); [discriminate E|].
      injection E as <-. apply Forall_has_pages_filter.
Qed.

Lemma run_Consistent (lower : jsstring -> jsstring)
    (token : option jsstring) (evs : list Event) (w : World) :
  Consistent lower (ui w) ->
  Consistent lower (ui (fst (run lower token evs w))).
Proof.
  revert w. induction evs as [|ev rest IH]; intros w H; [exact H|].
  rewrite run_cons. cbn [fst]. apply IH. now apply step_Consistent.
Qed.

(** X16. Whatever the user does and however the network answers, from the
    first render on: every stored entry is pages-enabled, the filtered
    list is the stored list filtered by the current search term, and so
    every entry shown is stored, pages-enabled and matches the term. *)
Theorem shown_entries_invariant
    (lower : jsstring -> jsstring) (token : option jsstring)
    (evs : list Event) :
  let st := ui (fst (run lower token evs initialWorld)) in
  (forall r, In r (repos st) -> has_pages r = true)
  /\ filteredRepos st = filterRepos lower (searchTerm st) (repos st)
  /\ (forall r, In r (filteredRepos st) ->
        In r (repos st) /\ has_pages r = true
        /\ matchesSearch lower (searchTerm st) r = true).
Proof.
  cbv zeta.
  assert (C : Consistent lower (ui (fst (run lower token evs initialWorld)))).
  { apply run_Consistent. split; [constructor | reflexivity]. }
  destruct C as [Hp Hs].
  assert (Hp' := proj1 (Forall_forall _ _) Hp).
  split; [exact Hp'|]. split; [exact Hs|].
  intros r Hr. rewrite Hs in Hr. unfold filterRepos in Hr.
  apply filter_In in Hr. destruct Hr as [Hin Hm]. auto.
Qed.

(** ** One request at a time *)

Lemma OneAtATime_startFetch (token : option jsstring) (w : World) :
  loading (ui w) = false -> inflight w = [] ->
  OneAtATime (fst (startFetch token w)).
Proof.
  intros Hl Hi. destruct (Blank_dec (username (ui w))) as [Hb | Hn].
  - rewrite (startFetch_blank token w Hb). right. auto.
  - rewrite (startFetch_nonblank token w Hn). left. cbn [fst ui inflight].
    now rewrite Hi.
Qed.

Lemma step_OneAtATime (lower : jsstring -> jsstring)
    (token : option jsstring) (ev : Event) (w : World) :
  buttonOnly ev -> OneAtATime w -> OneAtATime (fst (step lower token ev w)).
Proof.
  intros Hb H. destruct ev as [|v|v|key| |i fr]; unfold step.
  - destruct Hb.
  - exact H.
  - destruct (Nat.ltb 0 (List.length (repos (ui w)))); [|exact H].
    destruct (jsstring_eqb v (searchTerm (ui w))); exact H.
  - simpl in Hb. now rewrite (jsstring_eqb_neq Hb).
  - unfold fetchButtonDisabled. destruct (loading (ui w)) eqn:El; [exact H|].
    destruct H as [[H _] | [_ H]]; [congruence|].
    now apply OneAtATime_startFetch.
  - destruct (nth_error (inflight w) i) as [url|] eqn:En; [|exact H].
    right. destruct H as [[_ H] | [_ H]].
    + destruct (inflight w) as [|a [|b l]]; try discriminate H.
      destruct i as [|i]; [|destruct i; discriminate En].
      split; [|reflexivity]. cbn [fst ui]. unfold resolveFetch.
      now destruct (tryBlock token fr).
    + rewrite H in En. destruct i; discriminate En.
Qed.

(** X17. As long as fetches are started by the button only (after the one
    of the first render), at most one request is open at any time, and the
    loading flag is set exactly while one is. *)
Theorem button_only_one_request_open
    (lower : jsstring -> jsstring) (token : option jsstring)
    (evs : list Event) :
  Forall buttonOnly evs ->
  OneAtATime (fst (run lower token (Mount :: evs) initialWorld)).
Proof.
  intros H. rewrite run_cons. cbn [fst].
  assert (M : OneAtATime (fst (step lower token Mount initialWorld))).
  { unfold step.
    rewrite (startFetch_nonblank token initialWorld
               (proj2 (not_Blank_trim (lit "octocat")) eq_refl)).
    left. split; reflexivity. }
  revert M. generalize (fst (step lower token Mount initialWorld)).
  induction H as [|ev rest Hev Hrest IH]; intros w M; [exact M|].
  rewrite run_cons. cbn [fst]. apply IH. now apply step_OneAtATime.
Qed.

Lemma button_only_one_request_open_witness :
  OneAtATime
    (fst (run asciiToLowerCase None
            [Mount; ClickFetch; Resolve 0 (inr (okResponse [blogRepo]));
             ChangeSearch (lit "b"); KeyDown (lit "a"); ClickFetch]
            initialWorld)).
Proof.
  apply (button_only_one_request_open asciiToLowerCase None).
  repeat constructor. simpl. discriminate.
Defined.

(** X18. The Enter key is not subject to the guard of the button: while a
    fetch is loading, a click does nothing, but Enter in the username
    field issues another request, which is added to the open ones. *)
Theorem enter_bypasses_disabled_button
    (lower : jsstring -> jsstring) (token : option jsstring) (w : World) :
  loading (ui w) = true -> ~ Blank (username (ui w)) ->
  step lower token ClickFetch w = (w, [])
  /\ inflight (fst (step lower token (KeyDown (lit "Enter")) w))
     = inflight w ++ [requestUrl (username (ui w))]
  /\ requestsOf (snd (step lower token (KeyDown (lit "Enter")) w))
     = [requestUrl (username (ui w))].
Proof.
  intros Hl Hu. split; [|split].
  - unfold step, fetchButtonDisabled. now rewrite Hl.
  - rewrite step_enter. now rewrite (startFetch_nonblank token w Hu).
  - rewrite step_enter. now apply requestsOf_startFetch.
Qed.

Lemma enter_bypasses_disabled_button_witness :
  inflight (fst (step asciiToLowerCase None (KeyDown (lit "Enter"))
                   (fst (step asciiToLowerCase None Mount initialWorld))))
  = [requestUrl (lit "octocat"); requestUrl (lit "octocat")].
Proof.
  apply (proj1 (proj2 (enter_bypasses_disabled_button asciiToLowerCase None
                         (fst (step asciiToLowerCase None Mount initialWorld))
                         eq_refl
                         (proj2 (not_Blank_trim (lit "octocat")) eq_refl)))).
Defined.

(** ** Requests over a run *)

Lemma startFetch_requests (token : option jsstring) (w : World) :
  Forall forNonBlankUser (requestsOf (snd (startFetch token w)))
  /\ inflight (fst (startFetch token w))
     = inflight w ++ requestsOf (snd (startFetch token w)).
Proof.
  destruct (Blank_dec (username (ui w))) as [Hb | Hn].
  - rewrite (startFetch_blank token w Hb). cbn [fst snd requestsOf flat_map].
    split; [constructor | now rewrite app_nil_r].
  - rewrite (requestsOf_startFetch token w Hn).
    rewrite (startFetch_nonblank token w Hn). cbn [fst inflight].
    split; [|reflexivity].
    constructor; [|constructor]. now exists (username (ui w)).
Qed.

Lemma removeNth_length (A : Type) (i : nat) (l : list A) :
  List.length (removeNth i l) <= List.length l.
Proof.
  revert i. induction l as [|a l IH]; intros i; [destruct i; simpl; lia|].
  destruct i as [|i]; simpl; [lia|]. specialize (IH i). lia.
Qed.

Lemma step_requests (lower : jsstring -> jsstring)
    (token : option jsstring) (ev : Event) (w : World) :
  Forall forNonBlankUser (requestsOf (snd (step lower token ev w)))
  /\ List.length (inflight (fst (step lower token ev w)))
     <= List.length (inflight w)
        + List.length (requestsOf (snd (step lower token ev w))).
Proof.
  assert (S : Forall forNonBlankUser (requestsOf (snd (startFetch token w)))
              /\ List.length (inflight (fst (startFetch token w)))
                 <= List.length (inflight w)
                    + List.length (requestsOf (snd (startFetch token w)))).
  { destruct (startFetch_requests token w) as [F E].
    split; [exact F|]. rewrite E, length_app. lia. }
  assert (Z : Forall forNonBlankUser (requestsOf (snd (w, @nil Effect)))
              /\ List.length (inflight (fst (w, @nil Effect)))
                 <= List.length (inflight w)
                    + List.length (requestsOf (snd (w, @nil Effect)))).
  { cbn [fst snd requestsOf flat_map]. split; [constructor | lia]. }
  destruct ev as [|v|v|key| |i fr]; unfold step.
  - destruct (startFetch token w) as [w1 effects]. exact S.
  - cbn [fst snd requestsOf flat_map inflight]. split; [constructor | lia].
  - destruct (Nat.ltb 0 (List.length (repos (ui w)))); [|exact Z].
    destruct (jsstring_eqb v (searchTerm (ui w))); [exact Z|].
    cbn [fst snd requestsOf flat_map inflight]. split; [constructor | lia].
  - destruct (jsstring_eqb key (lit "Enter")); [exact S | exact Z].
  - destruct (fetchButtonDisabled (ui w)); [exact Z | exact S].
  - destruct (nth_error (inflight w) i); [|exact Z].
    cbn [fst snd requestsOf flat_map inflight]. split; [constructor|].
    pose proof (removeNth_length i (inflight w)). lia.
Qed.

(** X19. Over any sequence of events, every request issued goes to the
    listing URL of a username that is not blank, and the requests still
    open at the end are no more than those open at the start plus those
    issued. *)
Theorem requests_over_a_run
    (lower : jsstring -> jsstring) (token : option jsstring)
    (evs : list Event) (w : World) :
  Forall forNonBlankUser (requestsOf (snd (run lower token evs w)))
  /\ List.length (inflight (fst (run lower token evs w)))
     <= List.length (inflight w)
        + List.length (requestsOf (snd (run lower token evs w))).
Proof.
  revert w. induction evs as [|ev rest IH]; intros w.
  - cbn [run fst snd requestsOf flat_map]. split; [constructor | lia].
  - rewrite run_cons. cbn [fst snd]. rewrite requestsOf_app, length_app.
    destruct (step_requests lower token ev w) as [F1 L1].
    destruct (IH (fst (step lower token ev w))) as [F2 L2].
    split; [apply Forall_app; now split | lia].
Qed.

(** ** The two guards on the username *)

(** X20. The empty-state branch tests the username for being non-empty,
    the handler tests it for being non-blank.  With nothing stored and no
    fetch loading, a username made of white space gets the empty-state
    message although no fetch can be run for it; an empty username gets no
    message at all. *)
Theorem username_guards_differ
    (formatDate : jsstring -> jsstring) (token : option jsstring)
    (fr : FetchResult) (st : State) :
  loading st = false -> repos st = [] -> filteredRepos st = [] ->
  (Blank (username st) -> username st <> [] ->
     mainRegion formatDate st
     = EmptyState (lit "No GitHub Pages Found")
                  (emptyStateMessage (username st))
     /\ fetchGitHubPages token fr st = (st, []))
  /\ (username st = [] -> mainRegion formatDate st = Nothing).
Proof.
  intros Hl Hr Hf. unfold mainRegion, resultRegion. rewrite Hl, Hr, Hf.
  split.
  - intros Hb Hne. split; [|now apply fetch_blank].
    destruct (username st); [congruence | reflexivity].
  - intros ->. reflexivity.
Qed.

Lemma username_guards_differ_witness :
  mainRegion (fun s => s)
    (setUsername (lit "  ") (setLoading false initialState))
  = EmptyState (lit "No GitHub Pages Found") (emptyStateMessage (lit "  ")).
Proof.
  apply (proj1 (proj1 (username_guards_differ (fun s => s) None
                         (inr (okResponse []))
                         (setUsername (lit "  ")
                            (setLoading false initialState))
                         eq_refl eq_refl eq_refl)
                  (proj1 (trim_nil_iff (lit "  ")) eq_refl)
                  ltac:(discriminate))).
Defined.

(** ** The credential in the header *)

Lemma dropWhile_app_last (p : N -> bool) (l : jsstring) (c : N) :
  p c = false -> dropWhile p (l ++ [c]) = dropWhile p l ++ [c].
Proof.
  intros H. induction l as [|a l IH]; simpl.
  - now rewrite H.
  - destruct (p a); [exact IH | reflexivity].
Qed.

Lemma dropWhile_fixed (p : N -> bool) (l : jsstring) :
  (forall x, hd_error l = Some x -> p x = false) -> dropWhile p l = l.
Proof.
  destruct l as [|a l]; [reflexivity|]. intros H. simpl.
  now rewrite (H a eq_refl).
Qed.

Lemma trim_first (s : jsstring) (x : N) :
  hd_error (trim s) = Some x -> is_whitespace x = false.
Proof.
  unfold trim, trimEnd, trimStart.
  destruct (dropWhile is_whitespace s) as [|c s'] eqn:E; [discriminate|].
  assert (Hc : is_whitespace c = false) by (eapply dropWhile_head; exact E).
  simpl rev. rewrite (@dropWhile_app_last is_whitespace (rev s') c Hc).
  rewrite rev_app_distr. simpl.
  now intros [= <-].
Qed.

Lemma trim_last (s : jsstring) (x : N) :
  hd_error (rev (trim s)) = Some x -> is_whitespace x = false.
Proof.
  unfold trim, trimEnd. rewrite rev_involutive.
  destruct (dropWhile is_whitespace (rev (trimStart s))) as [|c s'] eqn:E;
    [discriminate|].
  intros [= <-]. eapply dropWhile_head. exact E.
Qed.

Lemma trim_idempotent (s : jsstring) : trim (trim s) = trim s.
Proof.
  assert (F := trim_first s). assert (L := trim_last s).
  generalize dependent (trim s). intros t F L.
  unfold trim, trimEnd, trimStart.
  rewrite (dropWhile_fixed is_whitespace t F).
  rewrite (dropWhile_fixed is_whitespace (rev t) L).
  apply rev_involutive.
Qed.

(** X21. Whenever a request carries a header, the header is
    [Authorization] and its value is [token ] followed by a credential
    that is not empty and has no white space at either end (trimming it
    again changes nothing). *)
Theorem sent_credential_is_trimmed
    (token : option jsstring) (fr : FetchResult) (st : State)
    (url key value : jsstring) (headers : list (jsstring * jsstring)) :
  In (HttpGet url headers) (snd (fetchGitHubPages token fr st)) ->
  In (key, value) headers ->
  key = lit "Authorization"
  /\ exists credential,
       value = lit "token " ++ credential
       /\ credential <> []
       /\ trim credential = credential
       /\ (forall x, hd_error credential = Some x -> is_whitespace x = false)
       /\ (forall x, hd_error (rev credential) = Some x ->
             is_whitespace x = false).
Proof.
  intros Hreq Hhdr.
  destruct (Blank_dec (username st)) as [Hb | Hn].
  { rewrite (fetch_blank token fr st Hb) in Hreq. destruct Hreq. }
  rewrite (fetch_effects token fr st Hn) in Hreq.
  apply in_app_or in Hreq.
  assert (Hh : headers = fst (prepareHeaders token)).
  { destruct Hreq as [Hw | [[= _ <-] | []]]; [|reflexivity].
    exfalso. unfold prepareHeaders in Hw. destruct token as [t|].
    - destruct (truthy t && truthy (trim t)); [destruct Hw|].
      destruct Hw as [Hw | []]; discriminate Hw.
    - destruct Hw as [Hw | []]; discriminate Hw. }
  subst headers. unfold prepareHeaders in Hhdr.
  destruct token as [t|]; [|destruct Hhdr].
  destruct (truthy t && truthy (trim t)) eqn:E; [|destruct Hhdr].
  destruct Hhdr as [[= <- <-] | []]. split; [reflexivity|].
  exists (trim t). apply andb_true_iff in E. destruct E as [_ E].
  split; [reflexivity|]. split; [now apply truthy_true_iff|].
  split; [apply trim_idempotent|]. split; [apply trim_first | apply trim_last].
Qed.

Lemma sent_credential_is_trimmed_witness :
  lit "Authorization" = lit "Authorization"
  /\ exists credential,
       lit "token ghp_secret" = lit "token " ++ credential
       /\ credential <> []
       /\ trim credential = credential
       /\ (forall x, hd_error credential = Some x -> is_whitespace x = false)
       /\ (forall x, hd_error (rev credential) = Some x ->
             is_whitespace x = false).
Proof.
  apply (@sent_credential_is_trimmed (Some (lit "  ghp_secret "))
           (inr (okResponse [])) readyState
           (requestUrl (lit "octocat"))
           (lit "Authorization") (lit "token ghp_secret")
           [(lit "Authorization", lit "token ghp_secret")]).
  - left. reflexivity.
  - left. reflexivity.
Defined.

(** ** The view when an answer arrives *)

Lemma nth_error_snoc (A : Type) (l : list A) (a : A) :
  nth_error (l ++ [a]) (List.length l) = Some a.
Proof.
  induction l as [|b l IH]; [reflexivity | exact IH].
Qed.

Lemma removeNth_snoc (A : Type) (l : list A) (a : A) :
  removeNth (List.length l) (l ++ [a]) = l.
Proof.
  induction l as [|b l IH]; [reflexivity|]. simpl. now rewrite IH.
Qed.

Lemma resolve_failure_state (token : option jsstring) (fr : FetchResult)
    (st : State) (err : Thrown) :
  tryBlock token fr = inl err ->
  resolveFetch token fr st = withOutcome st (Some (errorText err)).
Proof.
  intros E. unfold resolveFetch. now rewrite E.
Qed.

Lemma step_resolve_failure (lower : jsstring -> jsstring)
    (token : option jsstring) (i : nat) (fr : FetchResult) (w : World)
    (url : jsstring) (err : Thrown) :
  nth_error (inflight w) i = Some url -> tryBlock token fr = inl err ->
  ui (fst (step lower token (Resolve i fr) w))
  = withOutcome (ui w) (Some (errorText err)).
Proof.
  intros Hn E. rewrite (step_resolve lower token i fr w Hn). cbn [fst ui].
  rewrite E. now apply resolve_failure_state.
Qed.

Lemma step_resolve_success (lower : jsstring -> jsstring)
    (token : option jsstring) (i : nat) (r : Response) (w : World)
    (url : jsstring) (allRepos : list GitHubRepo) :
  nth_error (inflight w) i = Some url ->
  ok r = true -> json r = inr allRepos ->
  ui (fst (step lower token (Resolve i (inr r)) w))
  = filterEffect lower
      (setLoading false (setRepos (filter has_pages allRepos) (ui w))).
Proof.
  intros Hn Hok Hjson. rewrite (step_resolve lower token i (inr r) w Hn).
  cbn [fst ui]. unfold resolveFetch.
  now rewrite (tryBlock_success token r Hok Hjson).
Qed.

Lemma region_nothing_stored (formatDate : jsstring -> jsstring) (st : State) :
  loading st = false -> repos st = [] -> filteredRepos st = [] ->
  mainRegion formatDate st
  = if truthy (username st)
    then EmptyState (lit "No GitHub Pages Found")
                    (emptyStateMessage (username st))
    else Nothing.
Proof.
  intros Hl Hr Hf. unfold mainRegion, resultRegion. now rewrite Hl, Hr, Hf.
Qed.

(** X6. When a non-success answer arrives, whatever the state is then, the
    error cell receives a message beginning with
    [Failed to fetch repositories: ] and the status number in decimal, and
    the banner is rendered with the text [Error: ] followed by that
    message. *)
Theorem non_success_shows_banner
    (lower formatDate : jsstring -> jsstring)
    (token : option jsstring) (r : Response) (st : State) :
  ok r = false ->
  exists msg,
    Prefix (lit "Failed to fetch repositories: " ++ numberToString (status r))
           msg
    /\ error (resolveFetch token (inr r) st) = Some msg
    /\ errorBanner (render formatDate (resolveFetch token (inr r) st))
       = Some (lit "Error: " ++ msg)
    /\ (forall w i url,
          ui w = st -> nth_error (inflight w) i = Some url ->
          errorBanner
            (render formatDate
               (ui (fst (step lower token (Resolve i (inr r)) w))))
          = Some (lit "Error: " ++ msg))
    /\ (~ Blank (username st) ->
        errorBanner
          (render formatDate (fst (fetchGitHubPages token (inr r) st)))
        = Some (lit "Error: " ++ msg)).
Proof.
  intros Hok. destruct (status_message_prefix token r Hok) as [rest E].
  exists (genericMessage (status r) ++ rest).
  split; [now exists rest|].
  rewrite (resolve_failure_state token (inr r) st E).
  split; [reflexivity|]. split; [reflexivity|]. split.
  - intros w i url <- Hn.
    now rewrite (step_resolve_failure lower token i (inr r) w Hn E).
  - intros Hu. rewrite (fetch_state token (inr r) st Hu), E. reflexivity.
Qed.

Lemma non_success_shows_banner_witness :
  exists msg,
    Prefix (lit "Failed to fetch repositories: " ++ numberToString 404) msg
    /\ error (resolveFetch None (inr (failResponse 404)) readyState)
       = Some msg
    /\ errorBanner (render (fun s => s)
                      (resolveFetch None (inr (failResponse 404)) readyState))
       = Some (lit "Error: " ++ msg).
Proof.
  destruct (non_success_shows_banner asciiToLowerCase (fun s => s) None
              (failResponse 404) readyState eq_refl)
    as [msg [P [E [B _]]]].
  exists msg. split; [exact P|]. split; [exact E | exact B].
Defined.

(** X7. When an answer fails (rejected request, non-success status or
    unusable body) while the stored and the filtered list are empty, the
    region rendered is the [No GitHub Pages Found] message quoting the
    username field as it is then, although no list was obtained, and
    nothing when that field is empty.  This is what the first load shows
    for [octocat] when its request fails. *)
Theorem failure_with_nothing_stored_shows_empty_state
    (lower formatDate : jsstring -> jsstring)
    (token : option jsstring) (fr : FetchResult) (w : World)
    (i : nat) (url : jsstring) :
  nth_error (inflight w) i = Some url -> Failing fr ->
  repos (ui w) = [] -> filteredRepos (ui w) = [] ->
  (username (ui w) <> [] ->
     mainRegion formatDate (ui (fst (step lower token (Resolve i fr) w)))
     = EmptyState (lit "No GitHub Pages Found")
                  (emptyStateMessage (username (ui w))))
  /\ (username (ui w) = [] ->
      mainRegion formatDate (ui (fst (step lower token (Resolve i fr) w)))
      = Nothing)
  /\ mainRegion formatDate
       (ui (fst (run lower token [Mount; Resolve 0 fr] initialWorld)))
     = EmptyState (lit "No GitHub Pages Found")
                  (emptyStateMessage (lit "octocat")).
Proof.
  intros Hn Hf Hr Hfr.
  destruct (tryBlock_failing token Hf) as [err Herr].
  rewrite (step_resolve_failure lower token i fr w Hn Herr).
  rewrite (region_nothing_stored formatDate
             (withOutcome (ui w) (Some (errorText err))) eq_refl Hr Hfr).
  cbn [username withOutcome].
  split; [|split].
  - intros Hne. apply truthy_true_iff in Hne. now rewrite Hne.
  - intros ->. reflexivity.
  - rewrite !run_cons, run_nil. cbn [fst].
    assert (M : fst (step lower token Mount initialWorld)
                = {| ui := filterEffect lower
                             (setError None (setLoading true initialState));
                     inflight := [requestUrl (lit "octocat")] |}).
    { unfold step.
      now rewrite (startFetch_nonblank token initialWorld
                     (proj2 (not_Blank_trim (lit "octocat")) eq_refl)). }
    rewrite M.
    rewrite (@step_resolve_failure lower token 0 fr
               {| ui := filterEffect lower
                          (setError None (setLoading true initialState));
                  inflight := [requestUrl (lit "octocat")] |}
               (requestUrl (lit "octocat")) err eq_refl Herr).
    reflexivity.
Qed.

Lemma failure_with_nothing_stored_shows_empty_state_witness :
  mainRegion (fun s => s)
    (ui (fst (step asciiToLowerCase None (Resolve 0 (inr (failResponse 404)))
                {| ui := setUsername (lit "mona") initialState;
                   inflight := [requestUrl (lit "octocat")] |})))
  = EmptyState (lit "No GitHub Pages Found") (emptyStateMessage (lit "mona")).
Proof.
  apply (proj1 (@failure_with_nothing_stored_shows_empty_state
                  asciiToLowerCase (fun s => s) None
                  (inr (failResponse 404))
                  {| ui := setUsername (lit "mona") initialState;
                     inflight := [requestUrl (lit "octocat")] |}
                  0 (requestUrl (lit "octocat"))
                  eq_refl (Failing_status (failResponse 404) eq_refl)
                  eq_refl eq_refl)).
  discriminate.
Defined.

(** ** The view while a request is open *)

Lemma QuietWhileOpen_startFetch (token : option jsstring) (w : World) :
  loading (ui w) = false -> inflight w = [] ->
  QuietWhileOpen (fst (startFetch token w)).
Proof.
  intros Hl Hi. destruct (Blank_dec (username (ui w))) as [Hb | Hn].
  - rewrite (startFetch_blank token w Hb). right. auto.
  - rewrite (startFetch_nonblank token w Hn). left. cbn [fst ui inflight].
    rewrite Hi. repeat split.
Qed.

Lemma step_QuietWhileOpen (lower : jsstring -> jsstring)
    (token : option jsstring) (ev : Event) (w : World) :
  buttonOnly ev -> QuietWhileOpen w ->
  QuietWhileOpen (fst (step lower token ev w)).
Proof.
  intros Hb H. destruct ev as [|v|v|key| |i fr]; unfold step.
  - destruct Hb.
  - exact H.
  - destruct (Nat.ltb 0 (List.length (repos (ui w)))); [|exact H].
    destruct (jsstring_eqb v (searchTerm (ui w))); exact H.
  - simpl in Hb. now rewrite (jsstring_eqb_neq Hb).
  - unfold fetchButtonDisabled. destruct (loading (ui w)) eqn:El; [exact H|].
    destruct H as [[H _] | [_ H]]; [congruence|].
    now apply QuietWhileOpen_startFetch.
  - destruct (nth_error (inflight w) i) as [url|] eqn:En; [|exact H].
    right. destruct H as [[_ [H _]] | [_ H]].
    + destruct (inflight w) as [|a [|b l]]; try discriminate H.
      destruct i as [|i]; [|destruct i; discriminate En].
      split; [|reflexivity]. cbn [fst ui]. unfold resolveFetch.
      now destruct (tryBlock token fr).
    + rewrite H in En. destruct i; discriminate En.
Qed.

Lemma run_QuietWhileOpen (lower : jsstring -> jsstring)
    (token : option jsstring) (evs : list Event) (w : World) :
  Forall buttonOnly evs -> QuietWhileOpen w ->
  QuietWhileOpen (fst (run lower token evs w)).
Proof.
  intros H. revert w.
  induction H as [|ev rest Hev Hrest IH]; intros w Q; [exact Q|].
  rewrite run_cons. cbn [fst]. apply IH. now apply step_QuietWhileOpen.
Qed.

Lemma mount_QuietWhileOpen (lower : jsstring -> jsstring)
    (token : option jsstring) :
  QuietWhileOpen (fst (step lower token Mount initialWorld)).
Proof.
  unfold step.
  rewrite (startFetch_nonblank token initialWorld
             (proj2 (not_Blank_trim (lit "octocat")) eq_refl)).
  left. repeat split.
Qed.

(** X13. As long as fetches are started by the button only (after the one
    of the first render), at every moment at which a request is open the
    region is the placeholder grid of six cards, the error banner is
    hidden, and the button is disabled and reads [Loading...]. *)
Theorem view_while_request_open
    (lower formatDate : jsstring -> jsstring) (token : option jsstring)
    (evs : list Event) :
  Forall buttonOnly evs ->
  inflight (fst (run lower token (Mount :: evs) initialWorld)) <> [] ->
  mainRegion formatDate
    (ui (fst (run lower token (Mount :: evs) initialWorld)))
  = Skeleton 6
  /\ errorBanner
       (render formatDate
          (ui (fst (run lower token (Mount :: evs) initialWorld))))
     = None
  /\ fetchButtonDisabled
       (ui (fst (run lower token (Mount :: evs) initialWorld)))
     = true
  /\ fetchButtonLabel
       (ui (fst (run lower token (Mount :: evs) initialWorld)))
     = lit "Loading...".
Proof.
  intros Hb. rewrite run_cons. cbn [fst].
  pose proof (run_QuietWhileOpen lower token Hb
                (mount_QuietWhileOpen lower token)) as Q.
  revert Q.
  generalize (fst (run lower token evs
                     (fst (step lower token Mount initialWorld)))).
  intros w [[Hl [_ He]] | [_ Hi]] Hopen; [|contradiction].
  unfold mainRegion, fetchButtonDisabled, fetchButtonLabel.
  cbn [errorBanner render]. rewrite Hl, He. repeat split.
Qed.

Lemma view_while_request_open_witness :
  mainRegion (fun s => s)
    (ui (fst (run asciiToLowerCase None
                [Mount; Resolve 0 (inr (failResponse 500));
                 ChangeUsername (lit "mona"); ClickFetch;
                 ChangeUsername (lit "m")]
                initialWorld)))
  = Skeleton 6.
Proof.
  apply (proj1 (@view_while_request_open asciiToLowerCase (fun s => s) None
                  [Resolve 0 (inr (failResponse 500));
                   ChangeUsername (lit "mona"); ClickFetch;
                   ChangeUsername (lit "m")]
                  ltac:(repeat constructor)
                  ltac:(vm_compute; discriminate))).
Defined.

(** ** The empty state and the username *)

(** C8, as stated, fails.  A fetch for [octocat] is open, the username
    field is changed to [mona], and the answer arrives with no
    pages-enabled entry: the only request went to the listing of
    [octocat], the fetch completed without error, and the message quotes
    [mona] and does not mention [octocat].  When the field is cleared
    instead, no message is rendered at all. *)
Lemma username_edited_before_answer_counterexample :
  requestsOf (snd (run asciiToLowerCase None editedBeforeAnswer readyWorld))
  = [lit "https://api.github.com/users/octocat/repos?per_page=100"]
  /\ repos (ui (fst (run asciiToLowerCase None editedBeforeAnswer readyWorld)))
     = []
  /\ loading (ui (fst (run asciiToLowerCase None editedBeforeAnswer
                         readyWorld)))
     = false
  /\ error (ui (fst (run asciiToLowerCase None editedBeforeAnswer readyWorld)))
     = None
  /\ mainRegion (fun s => s)
       (ui (fst (run asciiToLowerCase None editedBeforeAnswer readyWorld)))
     = EmptyState (lit "No GitHub Pages Found")
                  (emptyStateMessage (lit "mona"))
  /\ includes (emptyStateMessage (lit "mona")) (lit "octocat") = false
  /\ requestsOf (snd (run asciiToLowerCase None clearedBeforeAnswer
                        readyWorld))
     = [lit "https://api.github.com/users/octocat/repos?per_page=100"]
  /\ mainRegion (fun s => s)
       (ui (fst (run asciiToLowerCase None clearedBeforeAnswer readyWorld)))
     = Nothing.
Proof.
  repeat split; vm_compute; reflexivity.
Qed.

Lemma emptyStateMessage_quotes (user : jsstring) :
  Substring user (emptyStateMessage user).
Proof.
  unfold emptyStateMessage.
  exists (lit "No repositories with GitHub Pages were found for user "
          ++ [34%N]),
         ([34%N]
          ++ lit ". Make sure you have repositories with GitHub Pages enabled.").
  now rewrite <- app_assoc.
Qed.

(** C8, amended.  For every fetch that completes successfully with no
    pages-enabled entry in the response, once the answer is processed the
    loading flag is false, the stored list is empty, and the region is the
    empty-state message whenever the username field is not empty then (and
    nothing when it is empty); the message quotes the value the username
    field has at that time.  When nothing happens between the request and
    the answer, that value is the username the request was issued for: the
    request goes to [https://api.github.com/users/<username>/repos?per_page=100]
    and the message quotes the same username. *)
Theorem empty_state_quotes_current_username
    (lower formatDate : jsstring -> jsstring)
    (token : option jsstring) (r : Response) (allRepos : list GitHubRepo)
    (w : World) :
  ok r = true -> json r = inr allRepos -> filter has_pages allRepos = [] ->
  (forall i url,
     nth_error (inflight w) i = Some url ->
     loading (ui (fst (step lower token (Resolve i (inr r)) w))) = false
     /\ repos (ui (fst (step lower token (Resolve i (inr r)) w))) = []
     /\ (username (ui w) <> [] ->
         mainRegion formatDate
           (ui (fst (step lower token (Resolve i (inr r)) w)))
         = EmptyState (lit "No GitHub Pages Found")
                      (emptyStateMessage (username (ui w))))
     /\ (username (ui w) = [] ->
         mainRegion formatDate
           (ui (fst (step lower token (Resolve i (inr r)) w)))
         = Nothing))
  /\ (~ Blank (username (ui w)) ->
      requestsOf
        (snd (run lower token
                [KeyDown (lit "Enter");
                 Resolve (List.length (inflight w)) (inr r)] w))
      = [lit "https://api.github.com/users/" ++ username (ui w)
         ++ lit "/repos?per_page=100"]
      /\ mainRegion formatDate
           (ui (fst (run lower token
                       [KeyDown (lit "Enter");
                        Resolve (List.length (inflight w)) (inr r)] w)))
         = EmptyState (lit "No GitHub Pages Found")
                      (emptyStateMessage (username (ui w)))
      /\ mainRegion formatDate (fetchAndSettle lower token (inr r) (ui w))
         = EmptyState (lit "No GitHub Pages Found")
                      (emptyStateMessage (username (ui w))))
  /\ Substring (username (ui w)) (emptyStateMessage (username (ui w)))
  /\ emptyStateMessage (username (ui w))
     = lit "No repositories with GitHub Pages were found for user "
       ++ [34%N] ++ username (ui w) ++ [34%N]
       ++ lit ". Make sure you have repositories with GitHub Pages enabled.".
Proof.
  intros Hok Hjson Hnone.
  assert (R : forall w' i url,
            nth_error (inflight w') i = Some url ->
            loading (ui (fst (step lower token (Resolve i (inr r)) w')))
            = false
            /\ repos (ui (fst (step lower token (Resolve i (inr r)) w'))) = []
            /\ mainRegion formatDate
                 (ui (fst (step lower token (Resolve i (inr r)) w')))
               = if truthy (username (ui w'))
                 then EmptyState (lit "No GitHub Pages Found")
                                 (emptyStateMessage (username (ui w')))
                 else Nothing).
  { intros w' i url Hn.
    rewrite (step_resolve_success lower token i r w' Hn Hok Hjson), Hnone.
    split; [reflexivity|]. split; [reflexivity|].
    now rewrite (region_nothing_stored formatDate
                   (filterEffect lower (setLoading false (setRepos [] (ui w'))))
                   eq_refl eq_refl eq_refl). }
  split; [|split; [|split; [apply emptyStateMessage_quotes | reflexivity]]].
  - intros i url Hn. destruct (R w i url Hn) as [Hl [Hr Hm]].
    split; [exact Hl|]. split; [exact Hr|]. rewrite Hm. split.
    + intros Hne. apply truthy_true_iff in Hne. now rewrite Hne.
    + intros ->. reflexivity.
  - intros Hu. rewrite !run_cons, run_nil, step_enter.
    assert (Q := requestsOf_startFetch token w Hu).
    rewrite (startFetch_nonblank token w Hu) in *. cbn [fst snd] in *.
    set (w1 := {| ui := setError None (setLoading true (ui w));
                  inflight := inflight w ++ [requestUrl (username (ui w))] |}).
    assert (Hn : nth_error (inflight w1) (List.length (inflight w))
                 = Some (requestUrl (username (ui w))))
      by apply nth_error_snoc.
    assert (S : snd (step lower token
                       (Resolve (List.length (inflight w)) (inr r)) w1) = [])
      by now rewrite (step_resolve lower token _ (inr r) w1 Hn).
    rewrite S, !app_nil_r, Q. destruct (R w1 _ _ Hn) as [_ [_ Hm]].
    rewrite Hm.
    cbn [w1 ui username setError setLoading].
    rewrite (not_Blank_truthy Hu).
    split; [reflexivity|]. split; [reflexivity|].
    unfold fetchAndSettle.
    rewrite (success_state token r (ui w) Hu Hok Hjson), Hnone.
    unfold mainRegion, resultRegion, filterEffect. simpl.
    now rewrite (not_Blank_truthy Hu).
Qed.

Lemma empty_state_quotes_current_username_witness :
  requestsOf
    (snd (run asciiToLowerCase None
            [KeyDown (lit "Enter"); Resolve 0 (inr (okResponse [toolRepo]))]
            readyWorld))
  = [lit "https://api.github.com/users/octocat/repos?per_page=100"]
  /\ mainRegion (fun s => s)
       (ui (fst (run asciiToLowerCase None
                   [KeyDown (lit "Enter");
                    Resolve 0 (inr (okResponse [toolRepo]))]
                   readyWorld)))
     = EmptyState (lit "No GitHub Pages Found")
                  (emptyStateMessage (lit "octocat"))
  /\ mainRegion (fun s => s)
       (fetchAndSettle asciiToLowerCase None (inr (okResponse [toolRepo]))
          readyState)
     = EmptyState (lit "No GitHub Pages Found")
                  (emptyStateMessage (lit "octocat")).
Proof.
  apply (proj1 (proj2 (empty_state_quotes_current_username
                         asciiToLowerCase (fun s => s) None
                         (okResponse [toolRepo]) readyWorld
                         eq_refl eq_refl eq_refl))).
  apply (proj2 (not_Blank_trim (lit "octocat"))). reflexivity.
Defined.
